(** * The SLPI host link and the WWAN request manager of CHRE

    A shallow embedding of [platform/slpi/host_link.cc] (the outbound queue
    towards the host, the two FastRPC entry points, [HostLink::sendMessage]
    and [HostLinkBase::shutdown]) and of the state declared in
    [chre/core/wwan_request_manager.h].

    Everything the code does to the outside (queue calls, diagnostics,
    sleeps, the completion hook) is appended to a trace, so that "how often"
    and "in which order" are statements about lists. *)

From Stdlib Require Import ZArith List String Bool Lia.
From Stdlib.Strings Require Import Byte.
From Equations Require Import Equations.
From Equations.Prop Require Import Logic.
Import ListNotations.

Local Open Scope string_scope.
Local Open Scope list_scope.
Local Open Scope Z_scope.

(** ** Machine integers *)

(** [<limits.h>]: [int] is 32 bits wide on the SLPI. *)
Definition INT_MAX : Z := 2147483647.

(** [static_cast<size_t>(x)] for an [int] [x]; [size_t] is 32 bits wide on
    the SLPI, and the conversion to an unsigned type is modulo [2^32]. *)
Definition static_cast_size_t (x : Z) : Z := x mod 2 ^ 32.

(** The implicit conversion of a [size_t] to the [unsigned int] behind
    [messageLen]. *)
Definition to_unsigned_int (x : Z) : Z := x mod 2 ^ 32.

(** ** Messages *)

(** The one member of [MessageToHost] that the host link reads:
    [message], a vector of bytes. *)
Record MessageToHost : Type := { message : list byte }.

(** [const MessageToHost *]: [None] is [nullptr]. *)
Definition MessagePtr : Type := option MessageToHost.
Definition nullptr : MessagePtr := None.

(** [message->message.size()] *)
Definition size (m : MessageToHost) : Z := Z.of_nat (List.length (message m)).

(** [memcpy(dst, src, n)]: the first [n] bytes of [dst] are replaced by the
    first [n] bytes of [src], the rest of [dst] is kept. *)
Definition memcpy (dst src : list byte) (n : Z) : list byte :=
  firstn (Z.to_nat n) src ++ skipn (Z.to_nat n) dst.

(** ** The blocking queue *)

Module FixedSizeBlockingQueue.
Section Queue.
Variable T : Type.
Variable kSize : Z.

(** Modelled from the spec: [chre/util/fixed_size_blocking_queue.h] is not
    among the sources. A fixed-capacity FIFO, front of the queue first.
    These are the items in the queue; whether the queue is shut down is
    kept beside them, see [shutDownAfterPush]. *)
Definition t : Type := list T.

(** Modelled from the spec: [push] of the absent queue. "Attempts to
    enqueue; returns false immediately if the queue is at capacity C; never
    blocks; no partial/ordering side effects on failure." *)
Definition push (item : T) (q : t) : bool * t :=
  if Z.of_nat (List.length q) <? kSize then (true, q ++ [item]) else (false, q).

(** Modelled from the spec: the shutdown state of the absent queue, after a
    push of [item] that returned [ok]. "Once the sentinel is successfully
    enqueued, every subsequent pop on an otherwise-idle queue returns the
    sentinel": the queue is shut down from the first push of the sentinel
    that goes in, and stays so. *)
Definition shutDownAfterPush (isSentinel : T -> bool) (item : T)
    (ok shutDown : bool) : bool :=
  if ok && isSentinel item then true else shutDown.

(** Modelled from the spec: [pop] of the absent queue. "Blocks the calling
    thread until an item is available, then returns it in FIFO order,
    removing it from the queue"; "a blocking dequeue on an empty,
    non-shutdown queue suspends the caller until an element is available";
    "popping after shutdown keeps returning the sentinel to any further
    caller (so repeated polls do not hang)". [None] is the caller left
    blocked: nothing can be returned until a producer pushes. *)
Definition pop (sentinel : T) (shutDown : bool) (q : t) : option (T * t) :=
  match q with
  | item :: rest => Some (item, rest)
  | [] => if shutDown then Some (sentinel, []) else None
  end.

(** Modelled from the spec: [empty] of the absent queue. "Non-blocking
    snapshot of occupancy == 0." *)
Definition empty (q : t) : bool :=
  match q with
  | [] => true
  | _ :: _ => false
  end.
End Queue.
Arguments push {T} kSize item q.
Arguments shutDownAfterPush {T} isSentinel item ok shutDown.
Arguments pop {T} sentinel shutDown q.
Arguments empty {T} q.
End FixedSizeBlockingQueue.

Definition kOutboundQueueSize : Z := 32.

(** [message == nullptr] *)
Definition isSentinel (item : MessagePtr) : bool :=
  match item with
  | None => true
  | Some _ => false
  end.

(** ** The world, and what is recorded of a run *)

(** The levels of [FARF], the diagnostic macro of the DSP, that occur. *)
Inductive FarfLevel : Type := MEDIUM | ERROR | FATAL.

Inductive Event : Type :=
| EvPush (item : MessagePtr) (ok : bool)   (* gOutboundQueue.push(item) returned ok *)
| EvPop (item : MessagePtr)                (* gOutboundQueue.pop() returned item *)
| EvEmpty (r : bool)                       (* gOutboundQueue.empty() returned r *)
| EvFarf (level : FarfLevel) (fmt : string) (args : list Z)
| EvLogd (fmt : string) (args : list Z)
| EvSleep (usec : Z)                       (* qurt_timer_sleep(usec) *)
| EvComplete (m : MessageToHost).          (* onMessageToHostComplete(m) *)

(** [gOutboundQueue] is in two fields: the items, and whether the queue is
    shut down. *)
Record World : Type := {
  gOutboundQueue : FixedSizeBlockingQueue.t MessagePtr;
  gOutboundQueue_shutDown : bool;
  trace : list Event
}.

(** A computation of the runtime that always returns. *)
Definition M (A : Type) : Type := World -> A * World.

Definition ret {A} (a : A) : M A := fun w => (a, w).
Definition bind {A B} (c : M A) (k : A -> M B) : M B :=
  fun w => let (a, w1) := c w in k a w1.

Declare Scope host_link_scope.
Delimit Scope host_link_scope with hl.
Notation "x <- c ;; k" := (bind c (fun x => k))
  (at level 61, c at next level, right associativity) : host_link_scope.
Notation "c ;; k" := (bind c (fun _ => k))
  (at level 61, right associativity) : host_link_scope.
Local Open Scope host_link_scope.

Definition emit (e : Event) : M unit :=
  fun w => (tt, {| gOutboundQueue := gOutboundQueue w;
                   gOutboundQueue_shutDown := gOutboundQueue_shutDown w;
                   trace := trace w ++ [e] |}).

Definition FARF (level : FarfLevel) (fmt : string) (args : list Z) : M unit :=
  emit (EvFarf level fmt args).
(** [LOGD], the regular log of [chre/platform/log.h]: the call is recorded;
    what the platform does with the text is not part of this model. *)
Definition LOGD (fmt : string) (args : list Z) : M unit :=
  emit (EvLogd fmt args).
Definition qurt_timer_sleep (usec : Z) : M unit :=
  emit (EvSleep usec).
Definition onMessageToHostComplete (m : MessageToHost) : M unit :=
  emit (EvComplete m).

(** [gOutboundQueue.push(item)] *)
Definition gOutboundQueue_push (item : MessagePtr) : M bool :=
  fun w =>
    let (ok, q) := FixedSizeBlockingQueue.push kOutboundQueueSize item (gOutboundQueue w) in
    (ok, {| gOutboundQueue := q;
            gOutboundQueue_shutDown :=
              FixedSizeBlockingQueue.shutDownAfterPush isSentinel item ok
                (gOutboundQueue_shutDown w);
            trace := trace w ++ [EvPush item ok] |}).

(** [gOutboundQueue.empty()] *)
Definition gOutboundQueue_empty : M bool :=
  fun w =>
    let r := FixedSizeBlockingQueue.empty (gOutboundQueue w) in
    (r, {| gOutboundQueue := gOutboundQueue w;
           gOutboundQueue_shutDown := gOutboundQueue_shutDown w;
           trace := trace w ++ [EvEmpty r] |}).

(** [gOutboundQueue.pop()]; [None] when the caller stays blocked. *)
Definition gOutboundQueue_pop (w : World) : option (MessagePtr * World) :=
  match FixedSizeBlockingQueue.pop nullptr (gOutboundQueue_shutDown w)
          (gOutboundQueue w) with
  | None => None
  | Some (item, q) =>
      Some (item, {| gOutboundQueue := q;
                     gOutboundQueue_shutDown := gOutboundQueue_shutDown w;
                     trace := trace w ++ [EvPop item] |})
  end.

(** The calls of the completion hook among some events, in order. *)
Definition completions (evs : list Event) : list MessageToHost :=
  flat_map (fun e => match e with EvComplete m => [m] | _ => [] end) evs.

(** ** The FastRPC entry points *)

(** What [chre/platform/slpi/fastrpc.h] and the build define, neither being
    among the sources: the three status codes, and whether [CHRE_ASSERT]
    is compiled in. *)
Class Platform : Type := {
  CHRE_FASTRPC_SUCCESS : Z;
  CHRE_FASTRPC_ERROR : Z;
  CHRE_FASTRPC_ERROR_SHUTTING_DOWN : Z;
  CHRE_ASSERTIONS_ENABLED : bool
}.

(** How a call of the blocking entry point ends. *)
Inductive Outcome (A : Type) : Type :=
| Returned (a : A)
| Blocked              (* suspended in pop(): empty queue, not shut down *)
| AssertionFailed.     (* a CHRE_ASSERT that is compiled in failed *)
Arguments Returned {A} a.
Arguments Blocked {A}.
Arguments AssertionFailed {A}.

(** What the caller of [chre_slpi_get_message_to_host] sees afterwards: the
    returned [int], the memory behind its two out-parameters, the world. *)
Record GetMessageReturn : Type := {
  result : Z;
  buffer_after : list byte;
  messageLen_after : Z;
  world_after : World
}.

Section FastRpc.
Context {platform : Platform}.

(** [CHRE_ASSERT(condition)]: whether execution goes on past it. *)
Definition CHRE_ASSERT (condition : bool) : bool :=
  negb CHRE_ASSERTIONS_ENABLED || condition.

(** [buffer] and [messageLen] are the memory behind the two pointers, so
    the assertions that these are not null hold by construction. *)
Definition chre_slpi_get_message_to_host
    (buffer : list byte) (bufferLen : Z) (messageLen : Z) (w : World)
  : Outcome GetMessageReturn :=
  if CHRE_ASSERT (bufferLen >? 0) then
    match gOutboundQueue_pop w with
    | None => Blocked
    | Some (None, w1) =>
        (* A null message is used during shutdown *)
        Returned {| result := CHRE_FASTRPC_ERROR_SHUTTING_DOWN;
                    buffer_after := buffer;
                    messageLen_after := messageLen;
                    world_after := w1 |}
    | Some (Some msg, w1) =>
        let '(result, buffer1, messageLen1, w2) :=
          if (bufferLen <=? 0)
             || (size msg >? INT_MAX)
             || (size msg >? static_cast_size_t bufferLen)
          then
            let (_, w2) :=
              FARF FATAL "Invalid buffer size %d or message size %zu"
                   [bufferLen; size msg] w1 in
            (CHRE_FASTRPC_ERROR, buffer, messageLen, w2)
          else
            let (_, w2) :=
              LOGD "Copying message of size %zu" [size msg] w1 in
            (CHRE_FASTRPC_SUCCESS,
             memcpy buffer (message msg) (size msg),
             to_unsigned_int (size msg),
             w2) in
        let (_, w3) := onMessageToHostComplete msg w2 in
        Returned {| result := result;
                    buffer_after := buffer1;
                    messageLen_after := messageLen1;
                    world_after := w3 |}
    end
  else AssertionFailed.

(** The parameters are ignored: the body is a TODO. *)
Definition chre_slpi_deliver_message_from_host
    (message : list byte) (messageLen : Z) : M Z :=
  ret CHRE_FASTRPC_SUCCESS.
End FastRpc.

(** [n] calls of the blocking entry point in a row, as the polling thread of
    the host makes them, each with the buffer and the length as the call
    before left them: the statuses in order and the world that is left;
    blocked or aborted as soon as one of the calls is. *)
Fixpoint repeatedPolls {platform : Platform} (n : nat)
    (buffer : list byte) (bufferLen : Z) (messageLen : Z) (w : World)
  : Outcome (list Z * World) :=
  match n with
  | O => Returned ([], w)
  | S n' =>
      match chre_slpi_get_message_to_host buffer bufferLen messageLen w with
      | Returned r =>
          match repeatedPolls n' (buffer_after r) bufferLen (messageLen_after r)
                  (world_after r) with
          | Returned (statuses, w') => Returned (result r :: statuses, w')
          | Blocked => Blocked
          | AssertionFailed => AssertionFailed
          end
      | Blocked => Blocked
      | AssertionFailed => AssertionFailed
      end
  end.

(** ** HostLink *)

Module HostLink.
(** [bool HostLink::sendMessage(const MessageToHost *message)] *)
Definition sendMessage (message : MessagePtr) : M bool :=
  gOutboundQueue_push message.
End HostLink.

Module HostLinkBase.
Section Shutdown.
(** [shutdown] runs on the runtime's thread while the host's thread may
    still be polling. [host t q] is the queue as the other thread has left
    it, from [q], by the time the queue call that [shutdown] records at
    position [t] of the trace takes the lock. Any function is allowed. *)
Variable host : nat -> FixedSizeBlockingQueue.t MessagePtr
                    -> FixedSizeBlockingQueue.t MessagePtr.

Definition meanwhile {A} (op : M A) : M A :=
  fun w => op {| gOutboundQueue := host (List.length (trace w)) (gOutboundQueue w);
                 gOutboundQueue_shutDown := gOutboundQueue_shutDown w;
                 trace := trace w |}.

Definition kPollingIntervalUsec : Z := 5000.

(** [while (!gOutboundQueue.push(nullptr) && --retryCount > 0)
      qurt_timer_sleep(kPollingIntervalUsec);]
    returning [retryCount] as the loop leaves it. *)
Equations? push_loop (retryCount : Z) (w : World) : Z * World
  by wf (Z.to_nat retryCount) lt :=
  push_loop retryCount w with meanwhile (gOutboundQueue_push nullptr) w := {
    | (true, w1) => (retryCount, w1)
    | (false, w1) with inspect (retryCount - 1 >? 0) := {
        | exist _ true more =>
            push_loop (retryCount - 1) (snd (qurt_timer_sleep kPollingIntervalUsec w1))
        | exist _ false _ => (retryCount - 1, w1) } }.
Proof. lia. Qed.

(** [while (!gOutboundQueue.empty() && --waitCount > 0)
      qurt_timer_sleep(kPollingIntervalUsec);]
    returning [waitCount] as the loop leaves it. *)
Equations? wait_loop (waitCount : Z) (w : World) : Z * World
  by wf (Z.to_nat waitCount) lt :=
  wait_loop waitCount w with meanwhile gOutboundQueue_empty w := {
    | (true, w1) => (waitCount, w1)
    | (false, w1) with inspect (waitCount - 1 >? 0) := {
        | exist _ true more =>
            wait_loop (waitCount - 1) (snd (qurt_timer_sleep kPollingIntervalUsec w1))
        | exist _ false _ => (waitCount - 1, w1) } }.
Proof. lia. Qed.

(** [void HostLinkBase::shutdown()] *)
Definition shutdown : M unit :=
  FARF MEDIUM "Shutting down host link" [] ;;
  retryCount <- push_loop 5 ;;
  if retryCount <=? 0 then
    (* Don't use LOGE, as it may involve trying to send a message *)
    FARF ERROR
      "No room in outbound queue for shutdown message and host not draining queue!" []
  else
    FARF MEDIUM "Draining message queue" [] ;;
    waitCount <- wait_loop 5 ;;
    if waitCount <=? 0 then
      FARF ERROR "Host took too long to drain outbound queue; exiting anyway" []
    else
      FARF MEDIUM "Finished draining queue" [].
End Shutdown.
End HostLinkBase.


(** ** WwanRequestManager *)

(** The one thing the manager keeps of the requesting [Nanoapp]: its
    instance id, a [uint32_t]. *)
Record Nanoapp : Type := { getInstanceId : Z }.

(** What the manager asks of [PlatformWwan], whose code belongs to the
    platform: a request for cell info, answered by whether the driver took
    it. Any driver state and any answer is allowed. *)
Class PlatformWwanApi (P : Type) : Type := {
  platform_getCapabilities : P -> Z;
  platform_requestCellInfo : P -> bool * P
}.

(** The members of [class WwanRequestManager]; the cookie, a [const void *],
    is kept as an address. *)
Record WwanRequestManager (P : Type) : Type := {
  mPlatformWwan : P;
  mCellInfoRequestingNanoappInstanceId : option Z;
  mCellInfoRequestingNanoappCookie : Z
}.
Arguments mPlatformWwan {P} _.
Arguments mCellInfoRequestingNanoappInstanceId {P} _.
Arguments mCellInfoRequestingNanoappCookie {P} _.

Section Wwan.
Context {P : Type} {driver : PlatformWwanApi P}.

(** Modelled from the spec: the body of [requestCellInfo], declared in the
    header, is in [wwan_request_manager.cc], which is not among the
    sources. "If the slot for this resource type is occupied, returns
    false immediately (request rejected, no side effects). Otherwise,
    marks the slot occupied with (requester, cookie), issues the
    underlying request to the platform driver, and returns whether the
    driver accepted it. If the driver rejects, the slot is released back
    to idle synchronously before returning." *)
Definition requestCellInfo (nanoapp : Nanoapp) (cookie : Z)
    (mgr : WwanRequestManager P) : bool * WwanRequestManager P :=
  match mCellInfoRequestingNanoappInstanceId mgr with
  | Some _ => (false, mgr)
  | None =>
      let occupied :=
        {| mPlatformWwan := mPlatformWwan mgr;
           mCellInfoRequestingNanoappInstanceId := Some (getInstanceId nanoapp);
           mCellInfoRequestingNanoappCookie := cookie |} in
      let (accepted, platformWwan) :=
        platform_requestCellInfo (mPlatformWwan occupied) in
      (accepted,
       {| mPlatformWwan := platformWwan;
          mCellInfoRequestingNanoappInstanceId :=
            if accepted then mCellInfoRequestingNanoappInstanceId occupied
            else None;
          mCellInfoRequestingNanoappCookie :=
            mCellInfoRequestingNanoappCookie occupied |})
  end.

(** Modelled from the spec: the completion callback, also in the absent
    [wwan_request_manager.cc]. It "delivers the result to the stored
    (requester, cookie), then releases the slot to idle"; the pair that
    the result goes to is returned, [None] when no request was pending. *)
Definition handleCellInfoResult (mgr : WwanRequestManager P)
  : option (Z * Z) * WwanRequestManager P :=
  (match mCellInfoRequestingNanoappInstanceId mgr with
   | Some instanceId => Some (instanceId, mCellInfoRequestingNanoappCookie mgr)
   | None => None
   end,
   {| mPlatformWwan := mPlatformWwan mgr;
      mCellInfoRequestingNanoappInstanceId := None;
      mCellInfoRequestingNanoappCookie := mCellInfoRequestingNanoappCookie mgr |}).

(** What the runtime does with a manager, one call after the other. *)
Inductive WwanCall : Type :=
| CallRequestCellInfo (nanoapp : Nanoapp) (cookie : Z)
| CallCellInfoResult.

(** The requests in flight, accepted by the driver and not yet completed,
    after a run of calls that starts with [inFlight] of them. *)
Fixpoint runWwan (calls : list WwanCall) (inFlight : nat)
    (mgr : WwanRequestManager P) : nat * WwanRequestManager P :=
  match calls with
  | [] => (inFlight, mgr)
  | CallRequestCellInfo nanoapp cookie :: calls' =>
      let (accepted, mgr1) := requestCellInfo nanoapp cookie mgr in
      runWwan calls' (if accepted then S inFlight else inFlight) mgr1
  | CallCellInfoResult :: calls' =>
      let (delivered, mgr1) := handleCellInfoResult mgr in
      runWwan calls'
        (match delivered with Some _ => Nat.pred inFlight | None => inFlight end)
        mgr1
  end.
(** Whether the slot of the pending request is taken. *)
Definition occupied (mgr : WwanRequestManager P) : bool :=
  match mCellInfoRequestingNanoappInstanceId mgr with
  | Some _ => true
  | None => false
  end.
End Wwan.

(** ** What a run of [shutdown] may look like *)

(** An operation retried after a sleep as long as it answers [false]: [k]
    failures, each followed by one sleep of the polling interval, and a last
    call that answers [b]. *)
Fixpoint retries (call : bool -> Event) (k : nat) (b : bool) : list Event :=
  match k with
  | O => [call b]
  | S k' =>
      call false :: EvSleep HostLinkBase.kPollingIntervalUsec :: retries call k' b
  end.

Definition attempts : nat -> bool -> list Event := retries (EvPush nullptr).
Definition polls : nat -> bool -> list Event := retries EvEmpty.

(** The events of a run in which the sentinel went in ([pushed]) or not
    after [k] failed pushes, and the queue was seen empty ([drained]) or not
    after [j] polls that saw it occupied. *)
Definition shutdown_events (k : nat) (pushed : bool) (j : nat) (drained : bool)
  : list Event :=
  EvFarf MEDIUM "Shutting down host link" [] ::
  attempts k pushed ++
  (if pushed then
     EvFarf MEDIUM "Draining message queue" [] ::
     polls j drained ++
     [if drained then EvFarf MEDIUM "Finished draining queue" []
      else EvFarf ERROR "Host took too long to drain outbound queue; exiting anyway" []]
   else
     [EvFarf ERROR
        "No room in outbound queue for shutdown message and host not draining queue!" []]).

Definition isPush (e : Event) : bool :=
  match e with EvPush _ _ => true | _ => false end.
Definition isEmptyPoll (e : Event) : bool :=
  match e with EvEmpty _ => true | _ => false end.
Definition isSleep (e : Event) : bool :=
  match e with EvSleep _ => true | _ => false end.

Definition count (p : Event -> bool) (evs : list Event) : nat :=
  List.length (filter p evs).

(** [n] pops in a row by a caller that is alone with the queue: the items
    in the order returned and the queue that is left, [None] when one of the
    pops blocks. *)
Fixpoint pops {T : Type} (sentinel : T) (shutDown : bool) (n : nat)
    (q : FixedSizeBlockingQueue.t T)
  : option (list T * FixedSizeBlockingQueue.t T) :=
  match n with
  | O => Some ([], q)
  | S n' =>
      match FixedSizeBlockingQueue.pop sentinel shutDown q with
      | None => None
      | Some (item, q1) =>
          match pops sentinel shutDown n' q1 with
          | None => None
          | Some (items, q2) => Some (item :: items, q2)
          end
      end
  end.

(** ** Worked examples *)

(** A platform for the worked examples: 0 on success and nonzero on failure,
    as the comment of the entry point has it. *)
Definition examplePlatform (assertions : bool) : Platform :=
  {| CHRE_FASTRPC_SUCCESS := 0;
     CHRE_FASTRPC_ERROR := -1;
     CHRE_FASTRPC_ERROR_SHUTTING_DOWN := -2;
     CHRE_ASSERTIONS_ENABLED := assertions |}.

Definition exampleMessage : MessageToHost :=
  {| message := [x01; x02; x03]%byte |}.

Definition exampleWorld (q : list MessagePtr) : World :=
  {| gOutboundQueue := q; gOutboundQueue_shutDown := false; trace := [] |}.

(** What the entry point returns for [exampleMessage], of three bytes, and
    a buffer of two. *)
Definition exampleErrorReturn : GetMessageReturn :=
  {| result := -1;
     buffer_after := [x00; x00]%byte;
     messageLen_after := 7;
     world_after :=
       {| gOutboundQueue := [];
          gOutboundQueue_shutDown := false;
          trace := [EvPop (Some exampleMessage);
                    EvFarf FATAL "Invalid buffer size %d or message size %zu" [2; 3];
                    EvComplete exampleMessage] |} |}.

(** A driver that takes every request and counts them. *)
Definition exampleDriver : PlatformWwanApi nat :=
  {| platform_getCapabilities := fun _ => 0;
     platform_requestCellInfo := fun issued => (true, S issued) |}.

Definition exampleManager (slot : option Z) : WwanRequestManager nat :=
  {| mPlatformWwan := 0%nat;
     mCellInfoRequestingNanoappInstanceId := slot;
     mCellInfoRequestingNanoappCookie := 0 |}.

(** ** More about runs *)

(** A push of the sentinel that went in. *)
Definition isSentinelPushed (e : Event) : bool :=
  match e with
  | EvPush None true => true
  | _ => false
  end.

(** The microseconds slept in some events. *)
Definition sleepTime (evs : list Event) : Z :=
  fold_right (fun e t => match e with EvSleep usec => usec + t | _ => t end) 0 evs.

(** What [shutdown] does at all: diagnostics by [FARF], pushes of the
    sentinel, polls of [empty()] and sleeps of the polling interval. *)
Definition isShutdownAction (e : Event) : bool :=
  match e with
  | EvFarf _ _ _ => true
  | EvPush None _ => true
  | EvEmpty _ => true
  | EvSleep usec => usec =? HostLinkBase.kPollingIntervalUsec
  | _ => false
  end.

(** A host thread that does not touch the queue any more. *)
Definition deadHost : nat -> FixedSizeBlockingQueue.t MessagePtr
                          -> FixedSizeBlockingQueue.t MessagePtr :=
  fun _ q => q.

(** A host thread that has taken everything off the queue whenever
    [shutdown] looks. *)
Definition quickHost : nat -> FixedSizeBlockingQueue.t MessagePtr
                           -> FixedSizeBlockingQueue.t MessagePtr :=
  fun _ _ => [].

(** What the entry point returns for [exampleMessage] and a buffer of four
    bytes. *)
Definition exampleSuccessReturn : GetMessageReturn :=
  {| result := 0;
     buffer_after := [x01; x02; x03; x00]%byte;
     messageLen_after := 3;
     world_after :=
       {| gOutboundQueue := [nullptr];
          gOutboundQueue_shutDown := false;
          trace := [EvPop (Some exampleMessage);
                    EvLogd "Copying message of size %zu" [3];
                    EvComplete exampleMessage] |} |}.

(** What the entry point returns, assertions compiled out, for
    [exampleMessage] and a [bufferLen] of 0. *)
Definition exampleRejectedReturn : GetMessageReturn :=
  {| result := -1;
     buffer_after := [x00; x00]%byte;
     messageLen_after := 7;
     world_after :=
       {| gOutboundQueue := [];
          gOutboundQueue_shutDown := false;
          trace := [EvPop (Some exampleMessage);
                    EvFarf FATAL "Invalid buffer size %d or message size %zu" [0; 3];
                    EvComplete exampleMessage] |} |}.

(** * Properties *)

(** ** Integers and traces *)

Lemma static_cast_size_t_int (x : Z) :
  0 <= x <= INT_MAX -> static_cast_size_t x = x.
Proof.
  unfold static_cast_size_t, INT_MAX. intros H.
  apply Z.mod_small. lia.
Qed.

Lemma to_unsigned_int_size (x : Z) :
  0 <= x <= INT_MAX -> to_unsigned_int x = x.
Proof.
  unfold to_unsigned_int, INT_MAX. intros H.
  apply Z.mod_small. lia.
Qed.

Lemma size_nonneg (m : MessageToHost) : 0 <= size m.
Proof. unfold size. lia. Qed.

(** ** The blocking entry point *)

Section FastRpcFacts.
Context {platform : Platform}.

(** The check of line 60, as a proposition. *)
Lemma buffer_check_fails (bufferLen : Z) (msg : MessageToHost) :
  bufferLen < size msg \/ INT_MAX < size msg \/ bufferLen <= 0 ->
  (bufferLen <=? 0) || (size msg >? INT_MAX)
    || (size msg >? static_cast_size_t bufferLen) = true.
Proof.
  intros H.
  destruct (Z.leb_spec bufferLen 0) as [Hle | Hpos]; [reflexivity |].
  destruct (Z.gtb_spec (size msg) INT_MAX) as [Hbig | Hsmall]; [reflexivity |].
  cbn [orb].
  rewrite static_cast_size_t_int by lia.
  apply Z.gtb_lt. lia.
Qed.

Lemma buffer_check_passes (bufferLen : Z) (msg : MessageToHost) :
  0 < bufferLen <= INT_MAX -> size msg <= bufferLen ->
  (bufferLen <=? 0) || (size msg >? INT_MAX)
    || (size msg >? static_cast_size_t bufferLen) = false.
Proof.
  intros Hb Hs.
  rewrite static_cast_size_t_int by lia.
  destruct (Z.leb_spec bufferLen 0); [lia |].
  destruct (Z.gtb_spec (size msg) INT_MAX); [lia |].
  destruct (Z.gtb_spec (size msg) bufferLen); [lia | reflexivity].
Qed.

(** The three ways through the entry point once [pop] has returned. *)
Lemma get_message_sentinel buffer bufferLen messageLen w rest :
  gOutboundQueue w = nullptr :: rest ->
  CHRE_ASSERT (bufferLen >? 0) = true ->
  chre_slpi_get_message_to_host buffer bufferLen messageLen w =
  Returned {| result := CHRE_FASTRPC_ERROR_SHUTTING_DOWN;
              buffer_after := buffer;
              messageLen_after := messageLen;
              world_after := {| gOutboundQueue := rest;
                                gOutboundQueue_shutDown := gOutboundQueue_shutDown w;
                                trace := trace w ++ [EvPop nullptr] |} |}.
Proof.
  intros Hq Hassert.
  unfold chre_slpi_get_message_to_host, gOutboundQueue_pop.
  rewrite Hassert, Hq. reflexivity.
Qed.

Lemma get_message_error buffer bufferLen messageLen w msg rest :
  gOutboundQueue w = Some msg :: rest ->
  CHRE_ASSERT (bufferLen >? 0) = true ->
  bufferLen < size msg \/ INT_MAX < size msg \/ bufferLen <= 0 ->
  chre_slpi_get_message_to_host buffer bufferLen messageLen w =
  Returned {| result := CHRE_FASTRPC_ERROR;
              buffer_after := buffer;
              messageLen_after := messageLen;
              world_after :=
                {| gOutboundQueue := rest;
                   gOutboundQueue_shutDown := gOutboundQueue_shutDown w;
                   trace := trace w ++
                     [EvPop (Some msg);
                      EvFarf FATAL "Invalid buffer size %d or message size %zu"
                             [bufferLen; size msg];
                      EvComplete msg] |} |}.
Proof.
  intros Hq Hassert Hbad.
  unfold chre_slpi_get_message_to_host, gOutboundQueue_pop.
  rewrite Hassert, Hq. cbn [FixedSizeBlockingQueue.pop].
  rewrite (buffer_check_fails _ _ Hbad).
  cbn -[size]. rewrite <- !app_assoc. reflexivity.
Qed.

Lemma get_message_success buffer bufferLen messageLen w msg rest :
  gOutboundQueue w = Some msg :: rest ->
  0 < bufferLen <= INT_MAX -> size msg <= bufferLen ->
  chre_slpi_get_message_to_host buffer bufferLen messageLen w =
  Returned {| result := CHRE_FASTRPC_SUCCESS;
              buffer_after := memcpy buffer (message msg) (size msg);
              messageLen_after := size msg;
              world_after :=
                {| gOutboundQueue := rest;
                   gOutboundQueue_shutDown := gOutboundQueue_shutDown w;
                   trace := trace w ++
                     [EvPop (Some msg);
                      EvLogd "Copying message of size %zu" [size msg];
                      EvComplete msg] |} |}.
Proof.
  intros Hq Hb Hs.
  unfold chre_slpi_get_message_to_host, gOutboundQueue_pop, CHRE_ASSERT.
  replace (bufferLen >? 0) with true by (symmetry; apply Z.gtb_lt; lia).
  rewrite orb_true_r, Hq. cbn [FixedSizeBlockingQueue.pop].
  rewrite (buffer_check_passes _ _ Hb Hs).
  cbn -[size memcpy to_unsigned_int]. rewrite <- !app_assoc.
  rewrite to_unsigned_int_size by (pose proof (size_nonneg msg); lia).
  reflexivity.
Qed.
End FastRpcFacts.

Section DrainClaims.
Context {platform : Platform}.

(** C1: for every non-sentinel message that the blocking entry point
    dequeues, the completion hook is called exactly once, on that message,
    both when the buffer passes the check (SUCCESS is returned) and when it
    does not (ERROR is returned). [bufferLen] is an [int]. *)
Theorem completion_hook_exactly_once buffer bufferLen messageLen w msg rest :
  gOutboundQueue w = Some msg :: rest ->
  CHRE_ASSERT (bufferLen >? 0) = true ->
  bufferLen <= INT_MAX ->
  exists r new,
    chre_slpi_get_message_to_host buffer bufferLen messageLen w = Returned r /\
    trace (world_after r) = trace w ++ EvPop (Some msg) :: new /\
    completions new = [msg] /\
    ((0 < bufferLen /\ size msg <= bufferLen /\
      result r = CHRE_FASTRPC_SUCCESS) \/
     ((bufferLen <= 0 \/ bufferLen < size msg) /\
      result r = CHRE_FASTRPC_ERROR)).
Proof.
  intros Hq Hassert Hint.
  destruct (Z_lt_le_dec 0 bufferLen) as [Hpos | Hnonpos].
  - destruct (Z_le_gt_dec (size msg) bufferLen) as [Hfits | Hlarge].
    + eexists; eexists. split.
      * apply get_message_success; [exact Hq | lia | exact Hfits].
      * cbn [world_after trace result]. repeat split. left. auto.
    + eexists; eexists. split.
      * apply get_message_error; [exact Hq | exact Hassert | lia].
      * cbn [world_after trace result]. repeat split. right. split; [lia | reflexivity].
  - eexists; eexists. split.
    + apply get_message_error; [exact Hq | exact Hassert | lia].
    + cbn [world_after trace result]. repeat split. right. split; [lia | reflexivity].
Qed.


(** C3: when [bufferLen] is smaller than the size of the dequeued message,
    or that size exceeds [INT_MAX], the entry point returns ERROR, the
    buffer is left as it was, and the completion hook is called once. *)
Theorem small_buffer_returns_error buffer bufferLen messageLen w msg rest :
  gOutboundQueue w = Some msg :: rest ->
  CHRE_ASSERT (bufferLen >? 0) = true ->
  bufferLen < size msg \/ INT_MAX < size msg ->
  exists r new,
    chre_slpi_get_message_to_host buffer bufferLen messageLen w = Returned r /\
    result r = CHRE_FASTRPC_ERROR /\
    buffer_after r = buffer /\
    trace (world_after r) = trace w ++ EvPop (Some msg) :: new /\
    completions new = [msg].
Proof.
  intros Hq Hassert Hbad. eexists; eexists. split.
  - apply get_message_error; [exact Hq | exact Hassert | tauto].
  - cbn [world_after trace result buffer_after]. repeat split.
Qed.

(** C10: the status that the entry point returns is one of SUCCESS, ERROR
    and SHUTTING_DOWN, and when it is ERROR or SHUTTING_DOWN (the codes
    being distinct from SUCCESS) neither the buffer nor [*messageLen] has
    been written. *)
Theorem out_parameters_written_on_success_only
    buffer bufferLen messageLen w r :
  CHRE_FASTRPC_ERROR <> CHRE_FASTRPC_SUCCESS ->
  CHRE_FASTRPC_ERROR_SHUTTING_DOWN <> CHRE_FASTRPC_SUCCESS ->
  chre_slpi_get_message_to_host buffer bufferLen messageLen w = Returned r ->
  (result r = CHRE_FASTRPC_SUCCESS \/ result r = CHRE_FASTRPC_ERROR \/
   result r = CHRE_FASTRPC_ERROR_SHUTTING_DOWN) /\
  (result r <> CHRE_FASTRPC_SUCCESS ->
   buffer_after r = buffer /\ messageLen_after r = messageLen) /\
  (result r = CHRE_FASTRPC_ERROR \/ result r = CHRE_FASTRPC_ERROR_SHUTTING_DOWN ->
   buffer_after r = buffer /\ messageLen_after r = messageLen).
Proof.
  intros Herr Hdown Hcall.
  assert (Hcases :
    (result r = CHRE_FASTRPC_SUCCESS \/
     (result r = CHRE_FASTRPC_ERROR \/ result r = CHRE_FASTRPC_ERROR_SHUTTING_DOWN) /\
     buffer_after r = buffer /\ messageLen_after r = messageLen)).
  { unfold chre_slpi_get_message_to_host, gOutboundQueue_pop in Hcall.
    destruct (CHRE_ASSERT (bufferLen >? 0)); [| discriminate].
    destruct (gOutboundQueue w) as [| [msg |] rest]; cbn in Hcall.
    - destruct (gOutboundQueue_shutDown w); cbn in Hcall;
        [inversion Hcall; subst r; cbn; auto | discriminate].
    - destruct ((bufferLen <=? 0) || (size msg >? INT_MAX)
                || (size msg >? static_cast_size_t bufferLen));
        cbn in Hcall; inversion Hcall; subst r; cbn; auto.
    - inversion Hcall; subst r; cbn; auto. }
  destruct Hcases as [Hok | [Hstatus [Hbuf Hlen]]].
  - split; [auto |]. split; [contradiction |].
    intros [He | He]; rewrite He in Hok; congruence.
  - split; [tauto |]. split; auto.
Qed.
End DrainClaims.
Section ShutdownFacts.
Import HostLinkBase.
Variable host : nat -> FixedSizeBlockingQueue.t MessagePtr
                    -> FixedSizeBlockingQueue.t MessagePtr.

Lemma meanwhile_push_trace item w b w1 :
  meanwhile host (gOutboundQueue_push item) w = (b, w1) ->
  trace w1 = trace w ++ [EvPush item b].
Proof.
  unfold meanwhile, gOutboundQueue_push. cbn [gOutboundQueue trace].
  destruct (FixedSizeBlockingQueue.push _ _ _) as [ok q].
  intros H. inversion H. reflexivity.
Qed.

Lemma meanwhile_empty_trace w b w1 :
  meanwhile host gOutboundQueue_empty w = (b, w1) ->
  trace w1 = trace w ++ [EvEmpty b].
Proof.
  unfold meanwhile, gOutboundQueue_empty. cbn [gOutboundQueue trace].
  intros H. inversion H. reflexivity.
Qed.

Lemma sleep_trace usec w :
  trace (snd (qurt_timer_sleep usec w)) = trace w ++ [EvSleep usec].
Proof. reflexivity. Qed.

Local Opaque meanwhile.

(** The step shared by the two loops: the call failed, the counter is
    still positive after its decrement, and the rest of the run is what
    the loop does after the sleep. *)
Ltac one_more_round IH Hcall Hgt :=
  let k := fresh "k" in
  let b := fresh "b" in
  let Hk := fresh "Hk" in
  let Htr := fresh "Htr" in
  let Hfst := fresh "Hfst" in
  let Hlast := fresh "Hlast" in
  pose proof (proj1 (Z.gtb_lt _ _) Hgt);
  destruct IH as (k & b & Hk & Htr & Hfst & Hlast); [lia |];
  exists (S k), b;
  rewrite Htr, sleep_trace, Hcall, Hfst, <- !app_assoc;
  cbn [retries app];
  repeat split;
  [lia | destruct b; lia | intros Hb; specialize (Hlast Hb); lia].

Ltac counter_spent Hgt :=
  match type of Hgt with
  | (?x >? 0) = false =>
      assert (x <= 0) by (apply Z.ltb_ge; rewrite <- Z.gtb_ltb; exact Hgt)
  end.

Lemma push_loop_trace retryCount w :
  1 <= retryCount ->
  exists k b,
    Z.of_nat k < retryCount /\
    trace (snd (push_loop host retryCount w)) = trace w ++ attempts k b /\
    fst (push_loop host retryCount w) = (if b then retryCount - Z.of_nat k else 0) /\
    (b = false -> Z.of_nat k = retryCount - 1).
Proof.
  unfold attempts.
  funelim (push_loop host retryCount w); intros Hpos;
    match goal with
    | Hop : meanwhile host _ _ = _ |- _ => apply meanwhile_push_trace in Hop
    end.
  - exists 0%nat, true. cbn [fst snd retries].
    repeat split; try lia; try assumption.
  - match goal with
    | IH : _ -> exists _, _ |- _ => one_more_round IH Heq more
    end.
  - exists 0%nat, false. cbn [fst snd retries].
    match goal with Hgt : (_ >? 0) = false |- _ => counter_spent Hgt end.
    repeat split; try lia; try assumption.
Qed.

Lemma wait_loop_trace waitCount w :
  1 <= waitCount ->
  exists j e,
    Z.of_nat j < waitCount /\
    trace (snd (wait_loop host waitCount w)) = trace w ++ polls j e /\
    fst (wait_loop host waitCount w) = (if e then waitCount - Z.of_nat j else 0) /\
    (e = false -> Z.of_nat j = waitCount - 1).
Proof.
  unfold polls.
  funelim (wait_loop host waitCount w); intros Hpos;
    match goal with
    | Hop : meanwhile host _ _ = _ |- _ => apply meanwhile_empty_trace in Hop
    end.
  - exists 0%nat, true. cbn [fst snd retries].
    repeat split; try lia; try assumption.
  - match goal with
    | IH : _ -> exists _, _ |- _ => one_more_round IH Heq more
    end.
  - exists 0%nat, false. cbn [fst snd retries].
    match goal with Hgt : (_ >? 0) = false |- _ => counter_spent Hgt end.
    repeat split; try lia; try assumption.
Qed.

(** Every run of [shutdown] is one of the runs of [shutdown_events]. *)
Lemma shutdown_run w :
  exists k pushed j drained,
    (k <= 4)%nat /\ (pushed = false -> k = 4%nat) /\
    (j <= 4)%nat /\ (drained = false -> j = 4%nat) /\
    trace (snd (shutdown host w)) = trace w ++ shutdown_events k pushed j drained.
Proof.
  unfold shutdown, bind, FARF, emit.
  set (w0 := {| gOutboundQueue := gOutboundQueue w;
                gOutboundQueue_shutDown := gOutboundQueue_shutDown w;
                trace := trace w ++ [EvFarf MEDIUM "Shutting down host link" []] |}).
  destruct (push_loop_trace 5 w0) as (k & pushed & Hk & Htr & Hcount & Hlast); [lia |].
  destruct (push_loop host 5 w0) as [retryCount w1]. cbn [fst snd] in *.
  destruct pushed.
  - (* the sentinel is in the queue *)
    replace (retryCount <=? 0) with false by (symmetry; apply Z.leb_gt; lia).
    set (w2 := {| gOutboundQueue := gOutboundQueue w1;
                  gOutboundQueue_shutDown := gOutboundQueue_shutDown w1;
                  trace := _ |}).
    destruct (wait_loop_trace 5 w2) as (j & drained & Hj & Htr2 & Hcount2 & Hlast2); [lia |].
    destruct (wait_loop host 5 w2) as [waitCount w3]. cbn [fst snd] in *.
    exists k, true, j, drained.
    split; [lia |]. split; [discriminate |]. split; [lia |].
    split; [intros Hd; specialize (Hlast2 Hd); lia |].
    destruct drained.
    + replace (waitCount <=? 0) with false by (symmetry; apply Z.leb_gt; lia).
      cbn [snd trace]. rewrite Htr2. subst w2. cbn [trace]. rewrite Htr. subst w0.
      cbn [trace]. unfold shutdown_events. rewrite <- !app_assoc. reflexivity.
    + replace (waitCount <=? 0) with true by (symmetry; apply Z.leb_le; lia).
      cbn [snd trace]. rewrite Htr2. subst w2. cbn [trace]. rewrite Htr. subst w0.
      cbn [trace]. unfold shutdown_events. rewrite <- !app_assoc. reflexivity.
  - (* five pushes failed *)
    replace (retryCount <=? 0) with true by (symmetry; apply Z.leb_le; lia).
    exists k, false, 0%nat, true.
    split; [lia |]. split; [intros _; specialize (Hlast eq_refl); lia |].
    split; [lia |]. split; [discriminate |].
    cbn [snd trace]. rewrite Htr. subst w0. cbn [trace].
    unfold shutdown_events. rewrite <- !app_assoc. reflexivity.
Qed.
End ShutdownFacts.

(** ** Counting in the runs of [shutdown] *)

Lemma retries_length call k b :
  List.length (retries call k b) = (2 * k + 1)%nat.
Proof. induction k as [| k IH]; cbn [retries List.length]; lia. Qed.

Lemma count_app p l1 l2 : count p (l1 ++ l2) = (count p l1 + count p l2)%nat.
Proof. unfold count. rewrite filter_app, length_app. reflexivity. Qed.

Lemma count_cons p e l :
  count p (e :: l) = ((if p e then 1 else 0) + count p l)%nat.
Proof. unfold count. cbn [filter]. destruct (p e); reflexivity. Qed.

Lemma count_retries p call k b :
  p (EvSleep HostLinkBase.kPollingIntervalUsec) = false ->
  count p (retries call k b) =
  ((if p (call false) then k else 0) + (if p (call b) then 1 else 0))%nat.
Proof.
  intros Hsleep. induction k as [| k IH]; cbn [retries].
  - rewrite count_cons. unfold count. cbn. destruct (p (call false)); lia.
  - rewrite !count_cons, Hsleep, IH. destruct (p (call false)); lia.
Qed.

Lemma count_sleep_retries call k b :
  (forall r, isSleep (call r) = false) ->
  count isSleep (retries call k b) = k.
Proof.
  intros Hcall. induction k as [| k IH]; cbn [retries].
  - rewrite count_cons, Hcall. reflexivity.
  - rewrite !count_cons, Hcall, IH. reflexivity.
Qed.

Lemma count_push_shutdown_events k pushed j drained :
  count isPush (shutdown_events k pushed j drained) = S k.
Proof.
  unfold shutdown_events, attempts, polls.
  rewrite count_cons, count_app, count_retries by reflexivity.
  destruct pushed.
  - rewrite count_cons, count_app, count_retries by reflexivity.
    destruct drained; cbn; lia.
  - cbn; lia.
Qed.

Lemma count_empty_shutdown_events k pushed j drained :
  count isEmptyPoll (shutdown_events k pushed j drained) =
  if pushed then S j else 0%nat.
Proof.
  unfold shutdown_events, attempts, polls.
  rewrite count_cons, count_app, count_retries by reflexivity.
  destruct pushed.
  - rewrite count_cons, count_app, count_retries by reflexivity.
    destruct drained; cbn; lia.
  - cbn; lia.
Qed.

Lemma count_sleep_shutdown_events k pushed j drained :
  count isSleep (shutdown_events k pushed j drained) =
  (k + if pushed then j else 0)%nat.
Proof.
  unfold shutdown_events, attempts, polls.
  rewrite count_cons, count_app, count_sleep_retries by reflexivity.
  destruct pushed.
  - rewrite count_cons, count_app, count_sleep_retries by reflexivity.
    destruct drained; cbn; lia.
  - cbn; lia.
Qed.

Lemma shutdown_events_length k pushed j drained :
  (k <= 4)%nat -> (j <= 4)%nat ->
  (List.length (shutdown_events k pushed j drained) <= 21)%nat.
Proof.
  intros Hk Hj. unfold shutdown_events, attempts, polls.
  cbn [List.length]. rewrite length_app, retries_length.
  destruct pushed; cbn [List.length].
  - rewrite length_app, retries_length. cbn [List.length]. lia.
  - lia.
Qed.

(** ** Shutdown *)

(** C5: in [shutdown] the push of the sentinel is tried at most 5 times,
    with one sleep of the polling interval after each failed try but the
    last; when all tries fail there were five of them, the run ends with the
    error reported by [FARF], and [empty()] has not been called. This holds
    whatever the host thread does meanwhile. *)
Theorem sentinel_push_retried_at_most_five_times host w :
  exists new k pushed rest,
    trace (snd (HostLinkBase.shutdown host w)) = trace w ++ new /\
    new = EvFarf MEDIUM "Shutting down host link" [] :: attempts k pushed ++ rest /\
    count isPush new = S k /\
    (S k <= 5)%nat /\
    (pushed = false ->
     S k = 5%nat /\
     rest = [EvFarf ERROR
               "No room in outbound queue for shutdown message and host not draining queue!"
               []] /\
     count isEmptyPoll new = 0%nat).
Proof.
  destruct (shutdown_run host w) as (k & pushed & j & drained & Hk & Hfail & Hj & _ & Htr).
  eexists; exists k, pushed; eexists.
  split; [exact Htr |].
  split; [reflexivity |].
  split; [apply count_push_shutdown_events |].
  split; [lia |].
  intros Hp. specialize (Hfail Hp). subst pushed.
  split; [lia |]. split; [reflexivity |].
  apply count_empty_shutdown_events.
Qed.

(** C6: [shutdown] always returns, whatever the host thread does: a run is
    at most 21 actions, at most 8 of them sleeps. Once the sentinel is in,
    [empty()] is polled at most 5 times, with one sleep of the polling
    interval after each poll that saw the queue occupied but the last, and
    the run ends right after the first poll that sees the queue empty, or
    after the fifth poll. *)
Theorem shutdown_returns_after_bounded_wait host w :
  exists w' new k pushed j drained,
    HostLinkBase.shutdown host w = (tt, w') /\
    trace w' = trace w ++ new /\
    new = shutdown_events k pushed j drained /\
    (List.length new <= 21)%nat /\
    (count isSleep new <= 8)%nat /\
    (pushed = true ->
     count isEmptyPoll new = S j /\
     (S j <= 5)%nat /\
     (drained = false -> S j = 5%nat)).
Proof.
  destruct (shutdown_run host w) as (k & pushed & j & drained & Hk & Hfail & Hj & Hwait & Htr).
  destruct (HostLinkBase.shutdown host w) as [u w'] eqn:Hrun.
  destruct u. cbn [snd] in Htr.
  exists w', (shutdown_events k pushed j drained), k, pushed, j, drained.
  split; [reflexivity |]. split; [exact Htr |]. split; [reflexivity |].
  split; [apply shutdown_events_length; assumption |].
  split.
  - rewrite count_sleep_shutdown_events. destruct pushed; lia.
  - intros Hp. subst pushed. rewrite count_empty_shutdown_events.
    split; [reflexivity |]. split; [lia |].
    intros Hd. specialize (Hwait Hd). lia.
Qed.

(** ** Sending *)

(** C8: [sendMessage] returns what the push of the message on the outbound
    queue returns, which is true exactly when the message was enqueued, and
    that one push is all that happens (a null message that goes in is the
    sentinel enqueued, which leaves the queue shut down). *)
Theorem sendMessage_returns_push_result message w :
  exists ok : bool,
    HostLink.sendMessage message w =
      (ok, {| gOutboundQueue :=
                if ok then gOutboundQueue w ++ [message] else gOutboundQueue w;
              gOutboundQueue_shutDown :=
                if ok && isSentinel message then true
                else gOutboundQueue_shutDown w;
              trace := trace w ++ [EvPush message ok] |}) /\
    ok = fst (FixedSizeBlockingQueue.push kOutboundQueueSize message (gOutboundQueue w)) /\
    (ok = true <-> Z.of_nat (List.length (gOutboundQueue w)) < kOutboundQueueSize).
Proof.
  unfold HostLink.sendMessage, gOutboundQueue_push, FixedSizeBlockingQueue.push.
  destruct (Z.ltb_spec (Z.of_nat (List.length (gOutboundQueue w))) kOutboundQueueSize)
    as [Hroom | Hfull].
  - exists true. repeat split; auto.
  - exists false. repeat split; auto; try discriminate. lia.
Qed.

(** C9: the entry point for messages from the host returns SUCCESS for
    every message and every length, and leaves the world as it was. *)
Theorem deliver_message_from_host_is_no_op
    {platform : Platform} message messageLen w :
  chre_slpi_deliver_message_from_host message messageLen w =
  (CHRE_FASTRPC_SUCCESS, w).
Proof. reflexivity. Qed.

(** ** The sentinel *)

Lemma pops_app {T : Type} (sentinel : T) (shutDown : bool)
    (q rest : FixedSizeBlockingQueue.t T) :
  pops sentinel shutDown (List.length q) (q ++ rest) = Some (q, rest).
Proof.
  induction q as [| item q IH]; cbn [pops List.length app FixedSizeBlockingQueue.pop].
  - reflexivity.
  - rewrite IH. reflexivity.
Qed.

Lemma pops_after_shutdown {T : Type} (sentinel : T) (n : nat) :
  pops sentinel true n [] = Some (repeat sentinel n, []).
Proof.
  induction n as [| n IH]; cbn [pops repeat FixedSizeBlockingQueue.pop].
  - reflexivity.
  - rewrite IH. reflexivity.
Qed.

Section SentinelClaims.
Context {platform : Platform}.

(** A poll of the empty queue after shutdown. *)
Lemma get_message_after_shutdown buffer bufferLen messageLen w :
  gOutboundQueue w = [] ->
  gOutboundQueue_shutDown w = true ->
  CHRE_ASSERT (bufferLen >? 0) = true ->
  chre_slpi_get_message_to_host buffer bufferLen messageLen w =
  Returned {| result := CHRE_FASTRPC_ERROR_SHUTTING_DOWN;
              buffer_after := buffer;
              messageLen_after := messageLen;
              world_after := {| gOutboundQueue := [];
                                gOutboundQueue_shutDown := true;
                                trace := trace w ++ [EvPop nullptr] |} |}.
Proof.
  intros Hq Hshut Hassert.
  unfold chre_slpi_get_message_to_host, gOutboundQueue_pop.
  rewrite Hassert, Hq, Hshut. reflexivity.
Qed.

Lemma repeatedPolls_after_shutdown buffer bufferLen messageLen n :
  CHRE_ASSERT (bufferLen >? 0) = true ->
  forall w,
    gOutboundQueue w = [] ->
    gOutboundQueue_shutDown w = true ->
    repeatedPolls n buffer bufferLen messageLen w =
    Returned (repeat CHRE_FASTRPC_ERROR_SHUTTING_DOWN n,
              {| gOutboundQueue := gOutboundQueue w;
                 gOutboundQueue_shutDown := gOutboundQueue_shutDown w;
                 trace := trace w ++ repeat (EvPop nullptr) n |}).
Proof.
  intros Hassert.
  induction n as [| n IH]; intros w Hq Hshut; cbn [repeatedPolls repeat].
  - rewrite app_nil_r. destruct w; reflexivity.
  - rewrite get_message_after_shutdown by assumption.
    cbn [buffer_after messageLen_after world_after result].
    rewrite IH by reflexivity.
    cbn [gOutboundQueue gOutboundQueue_shutDown trace].
    rewrite Hq, Hshut, <- app_assoc. reflexivity.
Qed.

(** C4: once the sentinel has been enqueued on the otherwise idle queue,
    every pop that follows returns the sentinel, and so every poll of the
    host returns the shutting-down status: none of them blocks, none
    delivers a message, and the completion hook is not called. *)
Theorem sentinel_delivery_is_idempotent buffer bufferLen messageLen w :
  gOutboundQueue w = [] ->
  CHRE_ASSERT (bufferLen >? 0) = true ->
  exists w1,
    gOutboundQueue_push nullptr w = (true, w1) /\
    forall n,
      pops nullptr (gOutboundQueue_shutDown w1) (S n) (gOutboundQueue w1) =
        Some (repeat nullptr (S n), []) /\
      exists wn,
        repeatedPolls (S n) buffer bufferLen messageLen w1 =
          Returned (repeat CHRE_FASTRPC_ERROR_SHUTTING_DOWN (S n), wn) /\
        trace wn = trace w1 ++ repeat (EvPop nullptr) (S n) /\
        completions (repeat (EvPop nullptr) (S n)) = [].
Proof.
  intros Hq Hassert.
  unfold gOutboundQueue_push, FixedSizeBlockingQueue.push.
  rewrite Hq. cbn [List.length app Z.of_nat].
  change (0 <? kOutboundQueueSize) with true. cbn iota.
  eexists. split; [reflexivity |].
  intros n.
  cbn [gOutboundQueue gOutboundQueue_shutDown trace
       FixedSizeBlockingQueue.shutDownAfterPush isSentinel andb].
  split.
  - cbn [pops FixedSizeBlockingQueue.pop repeat].
    rewrite pops_after_shutdown. reflexivity.
  - cbn [repeatedPolls repeat].
    rewrite (get_message_sentinel buffer bufferLen messageLen _ []);
      [| reflexivity | exact Hassert].
    cbn [buffer_after messageLen_after world_after result].
    rewrite repeatedPolls_after_shutdown by (exact Hassert || reflexivity).
    eexists. split; [reflexivity |].
    cbn [trace gOutboundQueue gOutboundQueue_shutDown].
    split.
    + rewrite <- app_assoc. reflexivity.
    + clear. induction n as [| n IH]; [reflexivity | exact IH].
Qed.
End SentinelClaims.

(** ** The request manager *)

Section WwanFacts.
Context {P : Type} {driver : PlatformWwanApi P}.

Lemma requestCellInfo_in_flight nanoapp cookie (mgr : WwanRequestManager P) :
  let (accepted, mgr1) := requestCellInfo nanoapp cookie mgr in
  ((if occupied mgr then 1 else 0) + (if accepted then 1 else 0))%nat =
  (if occupied mgr1 then 1 else 0)%nat.
Proof.
  unfold requestCellInfo, occupied.
  destruct (mCellInfoRequestingNanoappInstanceId mgr) as [instanceId |] eqn:Hslot.
  - rewrite Hslot. reflexivity.
  - cbn [mPlatformWwan mCellInfoRequestingNanoappInstanceId].
    destruct (platform_requestCellInfo (mPlatformWwan mgr)) as [[|] platformWwan];
      reflexivity.
Qed.

(** The requests in flight are the one of the slot, if it is taken. *)
Lemma runWwan_in_flight calls (mgr : WwanRequestManager P) :
  forall inFlight,
    inFlight = (if occupied mgr then 1 else 0)%nat ->
    (fst (runWwan calls inFlight mgr) <= 1)%nat.
Proof.
  revert mgr.
  induction calls as [| call calls IH]; intros mgr inFlight Hslot.
  - cbn [runWwan fst]. destruct (occupied mgr); lia.
  - destruct call as [nanoapp cookie |]; cbn [runWwan].
    + pose proof (requestCellInfo_in_flight nanoapp cookie mgr) as Hstep.
      destruct (requestCellInfo nanoapp cookie mgr) as [accepted mgr1].
      apply IH. rewrite <- Hstep, Hslot. destruct accepted; lia.
    + unfold handleCellInfoResult.
      apply IH. subst inFlight. unfold occupied.
      destruct (mCellInfoRequestingNanoappInstanceId mgr); reflexivity.
Qed.

(** C7: of the requests made of a manager that starts idle, at most one
    is in flight at any time; and [requestCellInfo] on a manager whose
    slot is taken returns false and leaves the manager, the driver in it
    and the stored instance id and cookie as they were. *)
Theorem at_most_one_request_in_flight
    calls (idle mgr : WwanRequestManager P) nanoapp cookie :
  mCellInfoRequestingNanoappInstanceId idle = None ->
  mCellInfoRequestingNanoappInstanceId mgr <> None ->
  (fst (runWwan calls 0 idle) <= 1)%nat /\
  requestCellInfo nanoapp cookie mgr = (false, mgr).
Proof.
  intros Hidle Hocc. split.
  - apply runWwan_in_flight. unfold occupied. rewrite Hidle. reflexivity.
  - unfold requestCellInfo.
    destruct (mCellInfoRequestingNanoappInstanceId mgr); [reflexivity | contradiction].
Qed.
End WwanFacts.

(** ** The claims at concrete inputs *)

(** Scenario C: the host polls all the time, the sentinel goes in at the
    first try and the queue is seen empty at the first poll. *)
Example shutdown_with_polling_host :
  trace (snd (HostLinkBase.shutdown (fun _ _ => []) (exampleWorld []))) =
  shutdown_events 0 true 0 true.
Proof. reflexivity. Qed.

(** A host that is gone, and a full queue: five tries, then the error. *)
Example shutdown_with_dead_host :
  trace (snd (HostLinkBase.shutdown (fun _ q => q)
                (exampleWorld (repeat (Some exampleMessage) 32)))) =
  shutdown_events 4 false 0 true.
Proof. reflexivity. Qed.

Lemma completion_hook_exactly_once_witness :
  (gOutboundQueue (exampleWorld [Some exampleMessage; nullptr]) =
     Some exampleMessage :: [nullptr] /\
   CHRE_ASSERT (platform := examplePlatform true) (4 >? 0) = true /\
   4 <= INT_MAX) /\
  exists r new,
    chre_slpi_get_message_to_host (platform := examplePlatform true)
      [x00; x00; x00; x00]%byte 4 0
      (exampleWorld [Some exampleMessage; nullptr]) = Returned r /\
    trace (world_after r) =
      trace (exampleWorld [Some exampleMessage; nullptr]) ++
      EvPop (Some exampleMessage) :: new /\
    completions new = [exampleMessage] /\
    ((0 < 4 /\ size exampleMessage <= 4 /\ result r = 0) \/
     ((4 <= 0 \/ 4 < size exampleMessage) /\ result r = -1)).
Proof.
  split.
  - repeat split. unfold INT_MAX. lia.
  - apply (completion_hook_exactly_once (platform := examplePlatform true)
             [x00; x00; x00; x00]%byte 4 0
             (exampleWorld [Some exampleMessage; nullptr]) exampleMessage [nullptr]).
    + reflexivity.
    + reflexivity.
    + unfold INT_MAX. lia.
Defined.


Lemma small_buffer_returns_error_witness :
  (gOutboundQueue (exampleWorld [Some exampleMessage]) = Some exampleMessage :: [] /\
   CHRE_ASSERT (platform := examplePlatform false) (2 >? 0) = true /\
   (2 < size exampleMessage \/ INT_MAX < size exampleMessage)) /\
  exists r new,
    chre_slpi_get_message_to_host (platform := examplePlatform false)
      [x00; x00]%byte 2 7 (exampleWorld [Some exampleMessage]) = Returned r /\
    result r = -1 /\
    buffer_after r = [x00; x00]%byte /\
    trace (world_after r) =
      trace (exampleWorld [Some exampleMessage]) ++
      EvPop (Some exampleMessage) :: new /\
    completions new = [exampleMessage].
Proof.
  split.
  - repeat split. left. reflexivity.
  - apply (small_buffer_returns_error (platform := examplePlatform false)
             [x00; x00]%byte 2 7 (exampleWorld [Some exampleMessage])
             exampleMessage []).
    + reflexivity.
    + reflexivity.
    + left. reflexivity.
Defined.

Lemma out_parameters_written_on_success_only_witness :
  (-1 <> 0 /\ -2 <> 0 /\
   chre_slpi_get_message_to_host (platform := examplePlatform true)
     [x00; x00]%byte 2 7 (exampleWorld [Some exampleMessage]) =
   Returned exampleErrorReturn) /\
  (result exampleErrorReturn = 0 \/ result exampleErrorReturn = -1 \/
   result exampleErrorReturn = -2) /\
  (result exampleErrorReturn <> 0 ->
   buffer_after exampleErrorReturn = [x00; x00]%byte /\
   messageLen_after exampleErrorReturn = 7) /\
  (result exampleErrorReturn = -1 \/ result exampleErrorReturn = -2 ->
   buffer_after exampleErrorReturn = [x00; x00]%byte /\
   messageLen_after exampleErrorReturn = 7).
Proof.
  split.
  - repeat split; discriminate.
  - apply (out_parameters_written_on_success_only (platform := examplePlatform true)
             [x00; x00]%byte 2 7 (exampleWorld [Some exampleMessage])
             exampleErrorReturn).
    + discriminate.
    + discriminate.
    + reflexivity.
Defined.

Lemma sentinel_delivery_is_idempotent_witness :
  (gOutboundQueue (exampleWorld []) = [] /\
   CHRE_ASSERT (platform := examplePlatform true) (4 >? 0) = true) /\
  exists w1,
    gOutboundQueue_push nullptr (exampleWorld []) = (true, w1) /\
    forall n,
      pops nullptr (gOutboundQueue_shutDown w1) (S n) (gOutboundQueue w1) =
        Some (repeat nullptr (S n), []) /\
      exists wn,
        repeatedPolls (platform := examplePlatform true) (S n)
          [x00; x00; x00; x00]%byte 4 7 w1 =
          Returned (repeat (-2) (S n), wn) /\
        trace wn = trace w1 ++ repeat (EvPop nullptr) (S n) /\
        completions (repeat (EvPop nullptr) (S n)) = [].
Proof.
  split.
  - split; reflexivity.
  - apply (sentinel_delivery_is_idempotent (platform := examplePlatform true)
             [x00; x00; x00; x00]%byte 4 7 (exampleWorld []));
      reflexivity.
Defined.

Lemma at_most_one_request_in_flight_witness :
  (mCellInfoRequestingNanoappInstanceId (exampleManager None) = None /\
   mCellInfoRequestingNanoappInstanceId (exampleManager (Some 7)) <> None) /\
  (fst (runWwan (driver := exampleDriver)
          [CallRequestCellInfo {| getInstanceId := 7 |} 100;
           CallRequestCellInfo {| getInstanceId := 8 |} 200;
           CallCellInfoResult;
           CallRequestCellInfo {| getInstanceId := 8 |} 200]
          0 (exampleManager None)) <= 1)%nat /\
  requestCellInfo (driver := exampleDriver) {| getInstanceId := 8 |} 200
    (exampleManager (Some 7)) = (false, exampleManager (Some 7)).
Proof.
  split.
  - split; [reflexivity | discriminate].
  - apply (at_most_one_request_in_flight (driver := exampleDriver)
             [CallRequestCellInfo {| getInstanceId := 7 |} 100;
              CallRequestCellInfo {| getInstanceId := 8 |} 200;
              CallCellInfoResult;
              CallRequestCellInfo {| getInstanceId := 8 |} 200]
             (exampleManager None) (exampleManager (Some 7))
             {| getInstanceId := 8 |} 200).
    + reflexivity.
    + discriminate.
Defined.

(** * Further properties *)

(** ** The blocking entry point, by what it returns *)

Section DrainFacts.
Context {platform : Platform}.

Lemma buffer_check_passed (bufferLen : Z) (msg : MessageToHost) :
  (bufferLen <=? 0) || (size msg >? INT_MAX)
    || (size msg >? static_cast_size_t bufferLen) = false ->
  0 < bufferLen /\ size msg <= INT_MAX /\ size msg <= bufferLen.
Proof.
  intros Hcheck.
  apply orb_false_elim in Hcheck. destruct Hcheck as [Hcheck Hcast].
  apply orb_false_elim in Hcheck. destruct Hcheck as [Hpos Hmax].
  apply Z.leb_gt in Hpos.
  rewrite Z.gtb_ltb in Hmax, Hcast. apply Z.ltb_ge in Hmax, Hcast.
  unfold static_cast_size_t in Hcast.
  pose proof (Z.mod_le bufferLen (2 ^ 32)) as Hmod.
  lia.
Qed.

Lemma memcpy_whole (buffer : list byte) (msg : MessageToHost) :
  memcpy buffer (message msg) (size msg) =
  message msg ++ skipn (List.length (message msg)) buffer.
Proof.
  unfold memcpy, size. rewrite Nat2Z.id, firstn_all. reflexivity.
Qed.

(** Every way in which a call returns. *)
Lemma get_message_returned buffer bufferLen messageLen w r :
  chre_slpi_get_message_to_host buffer bufferLen messageLen w = Returned r ->
  (exists msg,
     gOutboundQueue w = Some msg :: gOutboundQueue (world_after r) /\
     ((result r = CHRE_FASTRPC_ERROR /\
       buffer_after r = buffer /\ messageLen_after r = messageLen /\
       trace (world_after r) = trace w ++
         [EvPop (Some msg);
          EvFarf FATAL "Invalid buffer size %d or message size %zu"
                 [bufferLen; size msg];
          EvComplete msg]) \/
      (result r = CHRE_FASTRPC_SUCCESS /\
       buffer_after r = message msg ++ skipn (List.length (message msg)) buffer /\
       messageLen_after r = size msg /\
       (0 < bufferLen /\ size msg <= INT_MAX /\ size msg <= bufferLen) /\
       trace (world_after r) = trace w ++
         [EvPop (Some msg);
          EvLogd "Copying message of size %zu" [size msg];
          EvComplete msg]))) \/
  (result r = CHRE_FASTRPC_ERROR_SHUTTING_DOWN /\
   buffer_after r = buffer /\ messageLen_after r = messageLen /\
   trace (world_after r) = trace w ++ [EvPop nullptr] /\
   (gOutboundQueue w = nullptr :: gOutboundQueue (world_after r) \/
    gOutboundQueue w = [] /\ gOutboundQueue (world_after r) = [])).
Proof.
  intros Hcall.
  unfold chre_slpi_get_message_to_host, gOutboundQueue_pop in Hcall.
  destruct (CHRE_ASSERT (bufferLen >? 0)); [| discriminate].
  destruct (gOutboundQueue w) as [| [msg |] rest]; cbn [FixedSizeBlockingQueue.pop] in Hcall.
  - destruct (gOutboundQueue_shutDown w); [| discriminate].
    right. inversion Hcall; subst r. cbn. repeat split. right. split; reflexivity.
  - left. exists msg.
    destruct ((bufferLen <=? 0) || (size msg >? INT_MAX)
              || (size msg >? static_cast_size_t bufferLen)) eqn:Hcheck;
      cbn -[size memcpy to_unsigned_int] in Hcall; inversion Hcall; subst r;
      cbn -[size memcpy to_unsigned_int]; rewrite <- !app_assoc.
    + split; [reflexivity |]. left. repeat split.
    + split; [reflexivity |]. right.
      pose proof (buffer_check_passed _ _ Hcheck) as Hok.
      pose proof (size_nonneg msg).
      rewrite memcpy_whole, to_unsigned_int_size by lia.
      repeat split; lia.
  - right. inversion Hcall; subst r. cbn. repeat split. left. reflexivity.
Qed.

(** A call that returns on a queue that is not empty leaves its rest. *)
Lemma get_message_rest buffer bufferLen messageLen w item rest r :
  gOutboundQueue w = item :: rest ->
  chre_slpi_get_message_to_host buffer bufferLen messageLen w = Returned r ->
  gOutboundQueue (world_after r) = rest.
Proof.
  intros Hq Hcall.
  destruct (get_message_returned _ _ _ _ _ Hcall)
    as [(msg & Hfront & _) | (_ & _ & _ & _ & [Hfront | [Hfront _]])];
    rewrite Hq in Hfront; congruence.
Qed.
End DrainFacts.

Section DrainProperties.
Context {platform : Platform}.

(** X1: when the entry point returns SUCCESS (a code of its own), a message
    was at the front of the queue, the buffer starts with its payload and is
    unchanged behind it, and [*messageLen] is the size of the payload, which
    is at most [bufferLen]. *)
Theorem success_delivers_payload buffer bufferLen messageLen w r :
  CHRE_FASTRPC_ERROR <> CHRE_FASTRPC_SUCCESS ->
  CHRE_FASTRPC_ERROR_SHUTTING_DOWN <> CHRE_FASTRPC_SUCCESS ->
  chre_slpi_get_message_to_host buffer bufferLen messageLen w = Returned r ->
  result r = CHRE_FASTRPC_SUCCESS ->
  exists msg,
    gOutboundQueue w = Some msg :: gOutboundQueue (world_after r) /\
    buffer_after r = message msg ++ skipn (List.length (message msg)) buffer /\
    messageLen_after r = size msg /\
    0 <= messageLen_after r <= bufferLen.
Proof.
  intros Herr Hdown Hcall Hok.
  destruct (get_message_returned _ _ _ _ _ Hcall)
    as [(msg & Hq & Hitem) | (Hres & _)]; [| congruence].
  destruct Hitem as [(Hres & _) | (_ & Hbuf & Hlen & Hfit & _)]; [congruence |].
  exists msg. pose proof (size_nonneg msg).
  repeat split; auto; lia.
Qed.

(** X2: a buffer that has the [bufferLen] bytes it is said to have keeps its
    length in every call that returns: nothing is written past its end. *)
Theorem buffer_is_not_overrun buffer bufferLen messageLen w r :
  bufferLen <= Z.of_nat (List.length buffer) ->
  chre_slpi_get_message_to_host buffer bufferLen messageLen w = Returned r ->
  List.length (buffer_after r) = List.length buffer.
Proof.
  intros Hlen Hcall.
  destruct (get_message_returned _ _ _ _ _ Hcall)
    as [(msg & _ & Hitem) | (_ & Hbuf & _)].
  - destruct Hitem as [(_ & Hbuf & _) | (_ & Hbuf & _ & Hfit & _)]; rewrite Hbuf.
    + reflexivity.
    + unfold size in Hfit. rewrite length_app, length_skipn. lia.
  - rewrite Hbuf. reflexivity.
Qed.

(** X3: with a [bufferLen] that is not positive a call that returns has not
    written the buffer or [*messageLen], and its status is ERROR or
    SHUTTING_DOWN. *)
Theorem nonpositive_bufferLen_copies_nothing buffer bufferLen messageLen w r :
  bufferLen <= 0 ->
  chre_slpi_get_message_to_host buffer bufferLen messageLen w = Returned r ->
  (result r = CHRE_FASTRPC_ERROR \/ result r = CHRE_FASTRPC_ERROR_SHUTTING_DOWN) /\
  buffer_after r = buffer /\ messageLen_after r = messageLen.
Proof.
  intros Hneg Hcall.
  destruct (get_message_returned _ _ _ _ _ Hcall)
    as [(msg & _ & Hitem) | (Hres & Hbuf & Hlen & _)].
  - destruct Hitem as [(Hres & Hbuf & Hlen & _) | (_ & _ & _ & Hfit & _)];
      [auto | lia].
  - auto.
Qed.

(** X4: a call that returns on a queue that is not empty has taken exactly
    the front item off it, whatever the status: a message that did not fit
    is gone from the queue and handed to the completion hook like one that
    was copied, and the hook is not called for the sentinel. *)
Theorem returning_call_consumes_front_item
    buffer bufferLen messageLen w item rest r :
  gOutboundQueue w = item :: rest ->
  chre_slpi_get_message_to_host buffer bufferLen messageLen w = Returned r ->
  exists new,
    gOutboundQueue (world_after r) = rest /\
    trace (world_after r) = trace w ++ EvPop item :: new /\
    completions new = match item with Some msg => [msg] | None => [] end.
Proof.
  intros Hq Hcall.
  pose proof (get_message_rest _ _ _ _ _ _ _ Hq Hcall) as Hrest.
  destruct (get_message_returned _ _ _ _ _ Hcall)
    as [(msg & Hfront & Hitem) | (_ & _ & _ & Htr & [Hfront | [Hfront _]])];
    rewrite Hq in Hfront; [| | discriminate].
  - injection Hfront as Hitem' _. subst item.
    destruct Hitem as [(_ & _ & _ & Htr) | (_ & _ & _ & _ & Htr)];
      eexists; (split; [exact Hrest |]); (split; [exact Htr | reflexivity]).
  - injection Hfront as Hitem' _. subst item.
    exists []. split; [exact Hrest |]. split; [exact Htr | reflexivity].
Qed.

(** X6: a message with an empty payload is delivered to any buffer of
    positive [bufferLen]: SUCCESS, [*messageLen] is 0 and the buffer is as
    it was. *)
Theorem empty_message_is_delivered buffer bufferLen messageLen w msg rest :
  gOutboundQueue w = Some msg :: rest ->
  message msg = [] ->
  0 < bufferLen ->
  chre_slpi_get_message_to_host buffer bufferLen messageLen w =
  Returned {| result := CHRE_FASTRPC_SUCCESS;
              buffer_after := buffer;
              messageLen_after := 0;
              world_after :=
                {| gOutboundQueue := rest;
                   gOutboundQueue_shutDown := gOutboundQueue_shutDown w;
                   trace := trace w ++
                     [EvPop (Some msg);
                      EvLogd "Copying message of size %zu" [0];
                      EvComplete msg] |} |}.
Proof.
  intros Hq Hempty Hpos.
  unfold chre_slpi_get_message_to_host, gOutboundQueue_pop, CHRE_ASSERT.
  replace (bufferLen >? 0) with true by (symmetry; apply Z.gtb_lt; lia).
  rewrite orb_true_r, Hq. cbn [FixedSizeBlockingQueue.pop].
  assert (Hsize : size msg = 0) by (unfold size; rewrite Hempty; reflexivity).
  rewrite Hsize.
  replace (bufferLen <=? 0) with false by (symmetry; apply Z.leb_gt; lia).
  replace (0 >? static_cast_size_t bufferLen) with false.
  2: { symmetry. rewrite Z.gtb_ltb. apply Z.ltb_ge. unfold static_cast_size_t.
       apply Z.mod_pos_bound. lia. }
  cbn -[memcpy]. rewrite <- !app_assoc.
  unfold memcpy. rewrite Hempty. reflexivity.
Qed.
End DrainProperties.

(** ** Sending and polling together *)

Section SendAndPoll.
Context {platform : Platform}.

(** The entry point looks at the world through the front of the queue. *)
Lemma get_message_front buffer bufferLen messageLen w item rest r :
  gOutboundQueue w = item :: rest ->
  chre_slpi_get_message_to_host buffer bufferLen messageLen w = Returned r ->
  forall rest' shutDown' tr',
    exists new,
      trace (world_after r) = trace w ++ new /\
      chre_slpi_get_message_to_host buffer bufferLen messageLen
        {| gOutboundQueue := item :: rest';
           gOutboundQueue_shutDown := shutDown';
           trace := tr' |} =
      Returned {| result := result r;
                  buffer_after := buffer_after r;
                  messageLen_after := messageLen_after r;
                  world_after := {| gOutboundQueue := rest';
                                    gOutboundQueue_shutDown := shutDown';
                                    trace := tr' ++ new |} |}.
Proof.
  intros Hq Hcall rest' shutDown' tr'.
  unfold chre_slpi_get_message_to_host, gOutboundQueue_pop in *.
  destruct (CHRE_ASSERT (bufferLen >? 0)); [| discriminate].
  rewrite Hq in Hcall. cbn [gOutboundQueue trace FixedSizeBlockingQueue.pop] in *.
  destruct item as [msg |].
  - destruct ((bufferLen <=? 0) || (size msg >? INT_MAX)
              || (size msg >? static_cast_size_t bufferLen));
      cbn -[size memcpy to_unsigned_int] in *; inversion Hcall; subst r;
      cbn -[size memcpy to_unsigned_int]; rewrite <- !app_assoc;
      eexists; split; reflexivity.
  - inversion Hcall; subst r. cbn. eexists; split; reflexivity.
Qed.

(** X7: a message sent on an empty queue is what the next poll delivers, if
    it fits the buffer: the send succeeds, the poll returns SUCCESS with the
    payload at the start of the buffer and its size in [*messageLen], the
    completion hook is called on the message and the queue is empty again. *)
Theorem send_then_poll_round_trip buffer bufferLen messageLen w msg :
  gOutboundQueue w = [] ->
  0 < bufferLen <= INT_MAX ->
  size msg <= bufferLen ->
  exists w1,
    HostLink.sendMessage (Some msg) w = (true, w1) /\
    chre_slpi_get_message_to_host buffer bufferLen messageLen w1 =
    Returned {| result := CHRE_FASTRPC_SUCCESS;
                buffer_after := message msg ++ skipn (List.length (message msg)) buffer;
                messageLen_after := size msg;
                world_after :=
                  {| gOutboundQueue := [];
                     gOutboundQueue_shutDown := gOutboundQueue_shutDown w;
                     trace := trace w ++
                       [EvPush (Some msg) true;
                        EvPop (Some msg);
                        EvLogd "Copying message of size %zu" [size msg];
                        EvComplete msg] |} |}.
Proof.
  intros Hq Hb Hs.
  unfold HostLink.sendMessage, gOutboundQueue_push, FixedSizeBlockingQueue.push.
  rewrite Hq. cbn [List.length app Z.of_nat].
  change (0 <? kOutboundQueueSize) with true. cbn iota.
  eexists. split; [reflexivity |].
  rewrite (get_message_success buffer bufferLen messageLen _ msg []);
    [| reflexivity | exact Hb | exact Hs].
  cbn [trace]. rewrite memcpy_whole, <- app_assoc. reflexivity.
Qed.

(** X8: on a queue that is not empty, a send does not change what the next
    poll returns: the same status, buffer and [*messageLen] as without the
    send, and the sent item, if it went in, is at the back of what the poll
    leaves. *)
Theorem send_does_not_overtake buffer bufferLen messageLen w item rest r p :
  gOutboundQueue w = item :: rest ->
  chre_slpi_get_message_to_host buffer bufferLen messageLen w = Returned r ->
  exists ok w1 r1,
    HostLink.sendMessage p w = (ok, w1) /\
    chre_slpi_get_message_to_host buffer bufferLen messageLen w1 = Returned r1 /\
    result r1 = result r /\
    buffer_after r1 = buffer_after r /\
    messageLen_after r1 = messageLen_after r /\
    gOutboundQueue (world_after r1) =
      if ok then gOutboundQueue (world_after r) ++ [p]
      else gOutboundQueue (world_after r).
Proof.
  intros Hq Hcall.
  pose proof (get_message_rest _ _ _ _ _ _ _ Hq Hcall) as Hrest.
  unfold HostLink.sendMessage, gOutboundQueue_push, FixedSizeBlockingQueue.push.
  rewrite Hq.
  destruct (Z.of_nat (List.length (item :: rest)) <? kOutboundQueueSize).
  - destruct (get_message_front _ _ _ _ _ _ _ Hq Hcall (rest ++ [p])
                (FixedSizeBlockingQueue.shutDownAfterPush isSentinel p true
                   (gOutboundQueue_shutDown w))
                (trace w ++ [EvPush p true])) as (new & _ & Hnext).
    exists true. eexists. eexists. split; [reflexivity |].
    cbn [app]. split; [exact Hnext |]. cbn. rewrite Hrest. repeat split.
  - destruct (get_message_front _ _ _ _ _ _ _ Hq Hcall rest
                (FixedSizeBlockingQueue.shutDownAfterPush isSentinel p false
                   (gOutboundQueue_shutDown w))
                (trace w ++ [EvPush p false])) as (new & _ & Hnext).
    exists false. eexists. eexists. split; [reflexivity |].
    split; [exact Hnext |]. cbn. rewrite Hrest. repeat split.
Qed.

(** X9: [sendMessage] takes a null message like any other, and on an empty
    queue it is then the sentinel for the next poll: SHUTTING_DOWN, nothing
    written, and no call of the completion hook. *)
Theorem null_message_sent_stops_host buffer bufferLen messageLen w :
  gOutboundQueue w = [] ->
  CHRE_ASSERT (bufferLen >? 0) = true ->
  exists w1,
    HostLink.sendMessage nullptr w = (true, w1) /\
    chre_slpi_get_message_to_host buffer bufferLen messageLen w1 =
    Returned {| result := CHRE_FASTRPC_ERROR_SHUTTING_DOWN;
                buffer_after := buffer;
                messageLen_after := messageLen;
                world_after :=
                  {| gOutboundQueue := [];
                     gOutboundQueue_shutDown := true;
                     trace := trace w ++ [EvPush nullptr true; EvPop nullptr] |} |}.
Proof.
  intros Hq Hassert.
  unfold HostLink.sendMessage, gOutboundQueue_push, FixedSizeBlockingQueue.push.
  rewrite Hq. cbn [List.length app Z.of_nat].
  change (0 <? kOutboundQueueSize) with true. cbn iota.
  eexists. split; [reflexivity |].
  rewrite (get_message_sentinel buffer bufferLen messageLen _ []);
    [| reflexivity | exact Hassert].
  cbn [trace]. rewrite <- app_assoc. reflexivity.
Qed.
End SendAndPoll.

(** ** More about shutdown *)

Lemma retries_allowed call k b :
  (forall r, isShutdownAction (call r) = true) ->
  forallb isShutdownAction (retries call k b) = true.
Proof.
  intros Hcall. induction k as [| k IH]; cbn [retries forallb].
  - rewrite Hcall. reflexivity.
  - rewrite Hcall, IH. reflexivity.
Qed.

Lemma completions_app l1 l2 :
  completions (l1 ++ l2) = completions l1 ++ completions l2.
Proof. unfold completions. apply flat_map_app. Qed.

Lemma completions_cons e l :
  completions (e :: l) = completions [e] ++ completions l.
Proof. apply (completions_app [e] l). Qed.

Lemma retries_completions call k b :
  (forall r, completions [call r] = []) ->
  completions (retries call k b) = [].
Proof.
  intros Hcall. induction k as [| k IH]; cbn [retries].
  - apply Hcall.
  - rewrite completions_cons, Hcall, completions_cons, IH. reflexivity.
Qed.

Lemma sleepTime_app l1 l2 : sleepTime (l1 ++ l2) = sleepTime l1 + sleepTime l2.
Proof.
  induction l1 as [| e l1 IH]; cbn [app sleepTime fold_right].
  - reflexivity.
  - fold (sleepTime (l1 ++ l2)). fold (sleepTime l1). rewrite IH.
    destruct e; lia.
Qed.

Lemma sleepTime_cons e l : sleepTime (e :: l) = sleepTime [e] + sleepTime l.
Proof. apply (sleepTime_app [e] l). Qed.

Lemma sleepTime_retries call k b :
  (forall r, sleepTime [call r] = 0) ->
  sleepTime (retries call k b) = HostLinkBase.kPollingIntervalUsec * Z.of_nat k.
Proof.
  intros Hcall. induction k as [| k IH]; cbn [retries].
  - rewrite Hcall. lia.
  - rewrite sleepTime_cons, Hcall, sleepTime_cons, IH.
    cbn [sleepTime fold_right]. lia.
Qed.

Lemma shutdown_events_allowed k pushed j drained :
  forallb isShutdownAction (shutdown_events k pushed j drained) = true.
Proof.
  unfold shutdown_events, attempts, polls. cbn [forallb isShutdownAction andb].
  rewrite forallb_app, retries_allowed by (intros r; reflexivity).
  destruct pushed; cbn [forallb isShutdownAction andb].
  - rewrite forallb_app, retries_allowed by (intros r; reflexivity).
    destruct drained; reflexivity.
  - reflexivity.
Qed.

Lemma shutdown_events_completions k pushed j drained :
  completions (shutdown_events k pushed j drained) = [].
Proof.
  unfold shutdown_events, attempts, polls.
  rewrite completions_cons, completions_app, retries_completions
    by (intros r; reflexivity).
  destruct pushed.
  - rewrite (completions_cons (EvFarf MEDIUM "Draining message queue" [])),
      completions_app, retries_completions by (intros r; reflexivity).
    destruct drained; reflexivity.
  - reflexivity.
Qed.

Lemma shutdown_events_sentinel k pushed j drained :
  count isSentinelPushed (shutdown_events k pushed j drained) =
  if pushed then 1%nat else 0%nat.
Proof.
  unfold shutdown_events, attempts, polls.
  rewrite count_cons, count_app, count_retries by reflexivity.
  destruct pushed.
  - rewrite count_cons, count_app, count_retries by reflexivity.
    destruct drained; cbn; lia.
  - cbn; lia.
Qed.

Lemma shutdown_events_sleepTime k pushed j drained :
  sleepTime (shutdown_events k pushed j drained) =
  HostLinkBase.kPollingIntervalUsec * Z.of_nat (k + if pushed then j else 0).
Proof.
  unfold shutdown_events, attempts, polls.
  rewrite sleepTime_cons, sleepTime_app, sleepTime_retries by (intros r; reflexivity).
  destruct pushed.
  - rewrite (sleepTime_cons (EvFarf MEDIUM "Draining message queue" [])),
      sleepTime_app, sleepTime_retries by (intros r; reflexivity).
    destruct drained; cbn [sleepTime fold_right]; lia.
  - cbn [sleepTime fold_right]. lia.
Qed.

(** X10: all that [shutdown] does, whatever the host does, is to report by
    [FARF], push the sentinel, poll [empty()] and sleep for the polling
    interval: it pops nothing, pushes no message, does not use the regular
    log and does not call the completion hook. *)
Theorem shutdown_actions host w :
  exists new,
    trace (snd (HostLinkBase.shutdown host w)) = trace w ++ new /\
    forallb isShutdownAction new = true /\
    completions new = [].
Proof.
  destruct (shutdown_run host w) as (k & pushed & j & drained & _ & _ & _ & _ & Htr).
  eexists. split; [exact Htr |].
  split; [apply shutdown_events_allowed | apply shutdown_events_completions].
Qed.

(** X11: in a run of [shutdown] the sentinel goes into the queue at most
    once, and [empty()] is polled only in a run in which it went in. *)
Theorem sentinel_pushed_at_most_once host w :
  exists new,
    trace (snd (HostLinkBase.shutdown host w)) = trace w ++ new /\
    (count isSentinelPushed new <= 1)%nat /\
    (count isSentinelPushed new = 0%nat <-> count isEmptyPoll new = 0%nat).
Proof.
  destruct (shutdown_run host w) as (k & pushed & j & drained & _ & _ & _ & _ & Htr).
  eexists. split; [exact Htr |].
  rewrite shutdown_events_sentinel, count_empty_shutdown_events.
  destruct pushed; split; try lia; split; intros H; try discriminate H; reflexivity.
Qed.

(** X12: a run of [shutdown] sleeps for at most 40000 microseconds in all,
    whatever the host does, and for 20000 when the sentinel cannot be
    pushed. *)
Theorem shutdown_sleeps_at_most_40ms host w :
  exists new,
    trace (snd (HostLinkBase.shutdown host w)) = trace w ++ new /\
    0 <= sleepTime new <= 40000 /\
    (count isSentinelPushed new = 0%nat -> sleepTime new = 20000).
Proof.
  destruct (shutdown_run host w) as (k & pushed & j & drained & Hk & Hfail & Hj & _ & Htr).
  eexists. split; [exact Htr |].
  rewrite shutdown_events_sentinel, shutdown_events_sleepTime.
  unfold HostLinkBase.kPollingIntervalUsec.
  destruct pushed.
  - split; [lia | discriminate].
  - specialize (Hfail eq_refl). subst k. split; [lia | reflexivity].
Qed.

(** ** Shutdown against a host that is gone, and one that is quick *)

Section ShutdownSteps.
Import HostLinkBase.
Variable host : nat -> FixedSizeBlockingQueue.t MessagePtr
                    -> FixedSizeBlockingQueue.t MessagePtr.

(** A push that finds room ends the first loop. *)
Lemma push_loop_room retryCount w :
  Z.of_nat (List.length (host (List.length (trace w)) (gOutboundQueue w)))
    < kOutboundQueueSize ->
  push_loop host retryCount w =
  (retryCount,
   {| gOutboundQueue := host (List.length (trace w)) (gOutboundQueue w) ++ [nullptr];
      gOutboundQueue_shutDown := true;
      trace := trace w ++ [EvPush nullptr true] |}).
Proof.
  intros Hroom. rewrite push_loop_equation_1.
  unfold meanwhile, gOutboundQueue_push, FixedSizeBlockingQueue.push.
  cbn [gOutboundQueue trace].
  replace (_ <? kOutboundQueueSize) with true by (symmetry; apply Z.ltb_lt; exact Hroom).
  reflexivity.
Qed.

(** A poll that sees the queue empty ends the second loop. *)
Lemma wait_loop_drained waitCount w :
  host (List.length (trace w)) (gOutboundQueue w) = [] ->
  wait_loop host waitCount w =
  (waitCount, {| gOutboundQueue := [];
                 gOutboundQueue_shutDown := gOutboundQueue_shutDown w;
                 trace := trace w ++ [EvEmpty true] |}).
Proof.
  intros Hempty. rewrite wait_loop_equation_1.
  unfold meanwhile, gOutboundQueue_empty. cbn [gOutboundQueue trace].
  rewrite Hempty. reflexivity.
Qed.
End ShutdownSteps.

(** With a host that is gone and a full queue, a round of the first loop
    changes the trace only. *)
Lemma push_loop_full_step w :
  kOutboundQueueSize <= Z.of_nat (List.length (gOutboundQueue w)) ->
  HostLinkBase.meanwhile deadHost (gOutboundQueue_push nullptr) w =
  (false, {| gOutboundQueue := gOutboundQueue w;
             gOutboundQueue_shutDown := gOutboundQueue_shutDown w;
             trace := trace w ++ [EvPush nullptr false] |}).
Proof.
  intros Hfull.
  unfold HostLinkBase.meanwhile, deadHost, gOutboundQueue_push, FixedSizeBlockingQueue.push.
  cbn [gOutboundQueue trace].
  replace (_ <? kOutboundQueueSize) with false by (symmetry; apply Z.ltb_ge; exact Hfull).
  reflexivity.
Qed.

Lemma wait_loop_occupied_step w :
  gOutboundQueue w <> [] ->
  HostLinkBase.meanwhile deadHost gOutboundQueue_empty w =
  (false, {| gOutboundQueue := gOutboundQueue w;
             gOutboundQueue_shutDown := gOutboundQueue_shutDown w;
             trace := trace w ++ [EvEmpty false] |}).
Proof.
  intros Hocc.
  unfold HostLinkBase.meanwhile, deadHost, gOutboundQueue_empty.
  cbn [gOutboundQueue trace].
  destruct (gOutboundQueue w); [contradiction | reflexivity].
Qed.

(** X13: when the host is gone and the queue has room, [shutdown] puts the
    sentinel behind what is queued, polls [empty()] five times in vain and
    returns with the report that the host took too long; the queue is left
    so that a host that polls later gets the queued items and then the
    sentinel. *)
Theorem shutdown_without_host_leaves_sentinel w :
  Z.of_nat (List.length (gOutboundQueue w)) < kOutboundQueueSize ->
  HostLinkBase.shutdown deadHost w =
    (tt, {| gOutboundQueue := gOutboundQueue w ++ [nullptr];
            gOutboundQueue_shutDown := true;
            trace := trace w ++ shutdown_events 0 true 4 false |}) /\
  pops nullptr true (List.length (gOutboundQueue w)) (gOutboundQueue w ++ [nullptr]) =
    Some (gOutboundQueue w, [nullptr]).
Proof.
  intros Hroom. split; [| apply pops_app].
  unfold HostLinkBase.shutdown, bind, FARF, emit.
  rewrite push_loop_room by exact Hroom.
  change (5 <=? 0) with false.
  cbn [deadHost gOutboundQueue trace].
  repeat (rewrite HostLinkBase.wait_loop_equation_1, wait_loop_occupied_step
            by (cbn [gOutboundQueue]; destruct (gOutboundQueue w); discriminate);
          cbn -[HostLinkBase.wait_loop deadHost]).
  rewrite <- !app_assoc. reflexivity.
Qed.

(** X14: when the host is gone and the queue is full, [shutdown] tries the
    push five times, reports that there is no room and returns; the queue
    is as it was, with no sentinel in it. *)
Theorem shutdown_without_host_on_full_queue w :
  kOutboundQueueSize <= Z.of_nat (List.length (gOutboundQueue w)) ->
  HostLinkBase.shutdown deadHost w =
    (tt, {| gOutboundQueue := gOutboundQueue w;
            gOutboundQueue_shutDown := gOutboundQueue_shutDown w;
            trace := trace w ++ shutdown_events 4 false 0 false |}).
Proof.
  intros Hfull.
  unfold HostLinkBase.shutdown, bind, FARF, emit.
  repeat (rewrite HostLinkBase.push_loop_equation_1, push_loop_full_step
            by (cbn [gOutboundQueue]; exact Hfull);
          cbn -[HostLinkBase.push_loop deadHost]).
  rewrite <- !app_assoc. reflexivity.
Qed.

(** X15: when there is room for the sentinel at the first push and the host
    has emptied the queue by the first poll, [shutdown] returns without a
    single sleep, reporting that the queue is drained. *)
Theorem shutdown_with_quick_host_does_not_sleep host w :
  Z.of_nat (List.length (host (S (List.length (trace w))) (gOutboundQueue w)))
    < kOutboundQueueSize ->
  host (3 + List.length (trace w))%nat
       (host (S (List.length (trace w))) (gOutboundQueue w) ++ [nullptr]) = [] ->
  HostLinkBase.shutdown host w =
    (tt, {| gOutboundQueue := [];
            gOutboundQueue_shutDown := true;
            trace := trace w ++ shutdown_events 0 true 0 true |}).
Proof.
  intros Hroom Hdrained.
  unfold HostLinkBase.shutdown, bind, FARF, emit.
  rewrite push_loop_room;
    cbn [gOutboundQueue trace]; rewrite length_app, Nat.add_1_r; [| exact Hroom].
  change (5 <=? 0) with false. cbn iota beta.
  rewrite wait_loop_drained.
  - cbn. rewrite <- !app_assoc. reflexivity.
  - cbn [gOutboundQueue trace]. rewrite !length_app. cbn [List.length].
    replace (List.length (trace w) + 1 + 1 + 1)%nat with (3 + List.length (trace w))%nat
      by lia.
    exact Hdrained.
Qed.

(** ** The further properties at concrete inputs *)

Lemma success_delivers_payload_witness :
  (-1 <> 0 /\ -2 <> 0 /\
   chre_slpi_get_message_to_host (platform := examplePlatform true)
     [x00; x00; x00; x00]%byte 4 0 (exampleWorld [Some exampleMessage; nullptr]) =
   Returned exampleSuccessReturn /\
   result exampleSuccessReturn = 0) /\
  exists msg,
    gOutboundQueue (exampleWorld [Some exampleMessage; nullptr]) =
      Some msg :: gOutboundQueue (world_after exampleSuccessReturn) /\
    buffer_after exampleSuccessReturn =
      message msg ++ skipn (List.length (message msg)) [x00; x00; x00; x00]%byte /\
    messageLen_after exampleSuccessReturn = size msg /\
    0 <= messageLen_after exampleSuccessReturn <= 4.
Proof.
  split.
  - repeat split; discriminate.
  - apply (success_delivers_payload (platform := examplePlatform true)
             [x00; x00; x00; x00]%byte 4 0
             (exampleWorld [Some exampleMessage; nullptr]) exampleSuccessReturn).
    + discriminate.
    + discriminate.
    + reflexivity.
    + reflexivity.
Defined.

Lemma buffer_is_not_overrun_witness :
  (4 <= Z.of_nat (List.length [x00; x00; x00; x00]%byte) /\
   chre_slpi_get_message_to_host (platform := examplePlatform true)
     [x00; x00; x00; x00]%byte 4 0 (exampleWorld [Some exampleMessage; nullptr]) =
   Returned exampleSuccessReturn) /\
  List.length (buffer_after exampleSuccessReturn) =
  List.length [x00; x00; x00; x00]%byte.
Proof.
  split.
  - split; [cbv; discriminate | reflexivity].
  - apply (buffer_is_not_overrun (platform := examplePlatform true)
             [x00; x00; x00; x00]%byte 4 0
             (exampleWorld [Some exampleMessage; nullptr]) exampleSuccessReturn).
    + cbv; discriminate.
    + reflexivity.
Defined.

Lemma nonpositive_bufferLen_copies_nothing_witness :
  (0 <= 0 /\
   chre_slpi_get_message_to_host (platform := examplePlatform false)
     [x00; x00]%byte 0 7 (exampleWorld [Some exampleMessage]) =
   Returned exampleRejectedReturn) /\
  (result exampleRejectedReturn = -1 \/ result exampleRejectedReturn = -2) /\
  buffer_after exampleRejectedReturn = [x00; x00]%byte /\
  messageLen_after exampleRejectedReturn = 7.
Proof.
  split.
  - split; [cbv; discriminate | reflexivity].
  - apply (nonpositive_bufferLen_copies_nothing (platform := examplePlatform false)
             [x00; x00]%byte 0 7 (exampleWorld [Some exampleMessage])
             exampleRejectedReturn).
    + cbv; discriminate.
    + reflexivity.
Defined.

Lemma returning_call_consumes_front_item_witness :
  (gOutboundQueue (exampleWorld [Some exampleMessage]) = Some exampleMessage :: [] /\
   chre_slpi_get_message_to_host (platform := examplePlatform true)
     [x00; x00]%byte 2 7 (exampleWorld [Some exampleMessage]) =
   Returned exampleErrorReturn) /\
  exists new,
    gOutboundQueue (world_after exampleErrorReturn) = [] /\
    trace (world_after exampleErrorReturn) =
      trace (exampleWorld [Some exampleMessage]) ++
      EvPop (Some exampleMessage) :: new /\
    completions new = [exampleMessage].
Proof.
  split.
  - split; reflexivity.
  - apply (returning_call_consumes_front_item (platform := examplePlatform true)
             [x00; x00]%byte 2 7 (exampleWorld [Some exampleMessage])
             (Some exampleMessage) [] exampleErrorReturn); reflexivity.
Defined.

Lemma empty_message_is_delivered_witness :
  (gOutboundQueue (exampleWorld [Some {| message := [] |}; nullptr]) =
     Some {| message := [] |} :: [nullptr] /\
   message {| message := [] |} = [] /\
   0 < 1) /\
  chre_slpi_get_message_to_host (platform := examplePlatform true)
    [xff]%byte 1 7 (exampleWorld [Some {| message := [] |}; nullptr]) =
  Returned {| result := 0;
              buffer_after := [xff]%byte;
              messageLen_after := 0;
              world_after :=
                {| gOutboundQueue := [nullptr];
                   gOutboundQueue_shutDown := false;
                   trace := trace (exampleWorld [Some {| message := [] |}; nullptr]) ++
                     [EvPop (Some {| message := [] |});
                      EvLogd "Copying message of size %zu" [0];
                      EvComplete {| message := [] |}] |} |}.
Proof.
  split.
  - repeat split.
  - apply (empty_message_is_delivered (platform := examplePlatform true)
             [xff]%byte 1 7 (exampleWorld [Some {| message := [] |}; nullptr])
             {| message := [] |} [nullptr]); reflexivity.
Defined.

Lemma send_then_poll_round_trip_witness :
  (gOutboundQueue (exampleWorld []) = [] /\
   0 < 4 <= INT_MAX /\
   size exampleMessage <= 4) /\
  exists w1,
    HostLink.sendMessage (Some exampleMessage) (exampleWorld []) = (true, w1) /\
    chre_slpi_get_message_to_host (platform := examplePlatform true)
      [x00; x00; x00; xff]%byte 4 0 w1 =
    Returned {| result := 0;
                buffer_after :=
                  message exampleMessage ++
                  skipn (List.length (message exampleMessage)) [x00; x00; x00; xff]%byte;
                messageLen_after := size exampleMessage;
                world_after :=
                  {| gOutboundQueue := [];
                     gOutboundQueue_shutDown := false;
                     trace := trace (exampleWorld []) ++
                       [EvPush (Some exampleMessage) true;
                        EvPop (Some exampleMessage);
                        EvLogd "Copying message of size %zu" [size exampleMessage];
                        EvComplete exampleMessage] |} |}.
Proof.
  split.
  - repeat split; cbv; discriminate.
  - apply (send_then_poll_round_trip (platform := examplePlatform true)
             [x00; x00; x00; xff]%byte 4 0 (exampleWorld []) exampleMessage).
    + reflexivity.
    + split; [reflexivity | cbv; discriminate].
    + cbv; discriminate.
Defined.

Lemma send_does_not_overtake_witness :
  (gOutboundQueue (exampleWorld [Some exampleMessage; nullptr]) =
     Some exampleMessage :: [nullptr] /\
   chre_slpi_get_message_to_host (platform := examplePlatform true)
     [x00; x00; x00; x00]%byte 4 0 (exampleWorld [Some exampleMessage; nullptr]) =
   Returned exampleSuccessReturn) /\
  exists ok w1 r1,
    HostLink.sendMessage (Some {| message := [xff]%byte |})
      (exampleWorld [Some exampleMessage; nullptr]) = (ok, w1) /\
    chre_slpi_get_message_to_host (platform := examplePlatform true)
      [x00; x00; x00; x00]%byte 4 0 w1 = Returned r1 /\
    result r1 = result exampleSuccessReturn /\
    buffer_after r1 = buffer_after exampleSuccessReturn /\
    messageLen_after r1 = messageLen_after exampleSuccessReturn /\
    gOutboundQueue (world_after r1) =
      if ok
      then gOutboundQueue (world_after exampleSuccessReturn)
             ++ [Some {| message := [xff]%byte |}]
      else gOutboundQueue (world_after exampleSuccessReturn).
Proof.
  split.
  - split; reflexivity.
  - apply (send_does_not_overtake (platform := examplePlatform true)
             [x00; x00; x00; x00]%byte 4 0
             (exampleWorld [Some exampleMessage; nullptr])
             (Some exampleMessage) [nullptr] exampleSuccessReturn
             (Some {| message := [xff]%byte |})); reflexivity.
Defined.

Lemma null_message_sent_stops_host_witness :
  (gOutboundQueue (exampleWorld []) = [] /\
   CHRE_ASSERT (platform := examplePlatform true) (4 >? 0) = true) /\
  exists w1,
    HostLink.sendMessage nullptr (exampleWorld []) = (true, w1) /\
    chre_slpi_get_message_to_host (platform := examplePlatform true)
      [x00; x00; x00; x00]%byte 4 7 w1 =
    Returned {| result := -2;
                buffer_after := [x00; x00; x00; x00]%byte;
                messageLen_after := 7;
                world_after :=
                  {| gOutboundQueue := [];
                     gOutboundQueue_shutDown := true;
                     trace := trace (exampleWorld []) ++
                                [EvPush nullptr true; EvPop nullptr] |} |}.
Proof.
  split.
  - split; reflexivity.
  - apply (null_message_sent_stops_host (platform := examplePlatform true)
             [x00; x00; x00; x00]%byte 4 7 (exampleWorld [])); reflexivity.
Defined.

Lemma shutdown_without_host_leaves_sentinel_witness :
  Z.of_nat (List.length (gOutboundQueue (exampleWorld [Some exampleMessage])))
    < kOutboundQueueSize /\
  HostLinkBase.shutdown deadHost (exampleWorld [Some exampleMessage]) =
    (tt, {| gOutboundQueue :=
              gOutboundQueue (exampleWorld [Some exampleMessage]) ++ [nullptr];
            gOutboundQueue_shutDown := true;
            trace := trace (exampleWorld [Some exampleMessage]) ++
                     shutdown_events 0 true 4 false |}) /\
  pops nullptr true
       (List.length (gOutboundQueue (exampleWorld [Some exampleMessage])))
       (gOutboundQueue (exampleWorld [Some exampleMessage]) ++ [nullptr]) =
    Some (gOutboundQueue (exampleWorld [Some exampleMessage]), [nullptr]).
Proof.
  split.
  - reflexivity.
  - apply (shutdown_without_host_leaves_sentinel (exampleWorld [Some exampleMessage])).
    reflexivity.
Defined.

Lemma shutdown_without_host_on_full_queue_witness :
  kOutboundQueueSize <=
    Z.of_nat (List.length
                (gOutboundQueue (exampleWorld (repeat (Some exampleMessage) 32)))) /\
  HostLinkBase.shutdown deadHost (exampleWorld (repeat (Some exampleMessage) 32)) =
    (tt, {| gOutboundQueue :=
              gOutboundQueue (exampleWorld (repeat (Some exampleMessage) 32));
            gOutboundQueue_shutDown := false;
            trace := trace (exampleWorld (repeat (Some exampleMessage) 32)) ++
                     shutdown_events 4 false 0 false |}).
Proof.
  split.
  - cbv; discriminate.
  - apply (shutdown_without_host_on_full_queue
             (exampleWorld (repeat (Some exampleMessage) 32))).
    cbv; discriminate.
Defined.

Lemma shutdown_with_quick_host_does_not_sleep_witness :
  (Z.of_nat (List.length
               (quickHost (S (List.length (trace (exampleWorld [Some exampleMessage]))))
                          (gOutboundQueue (exampleWorld [Some exampleMessage]))))
     < kOutboundQueueSize /\
   quickHost (3 + List.length (trace (exampleWorld [Some exampleMessage])))%nat
     (quickHost (S (List.length (trace (exampleWorld [Some exampleMessage]))))
                (gOutboundQueue (exampleWorld [Some exampleMessage])) ++ [nullptr]) = []) /\
  HostLinkBase.shutdown quickHost (exampleWorld [Some exampleMessage]) =
    (tt, {| gOutboundQueue := [];
            gOutboundQueue_shutDown := true;
            trace := trace (exampleWorld [Some exampleMessage]) ++
                     shutdown_events 0 true 0 true |}).
Proof.
  split.
  - split; reflexivity.
  - apply (shutdown_with_quick_host_does_not_sleep quickHost
             (exampleWorld [Some exampleMessage])); reflexivity.
Defined.
